(** * ai-doctor: the conversation context manager

    A shallow embedding of [src/types.ts], [src/services/geminiService.ts]
    and the state logic of [src/App.tsx], followed by the properties of the
    turn limiter, the sliding context window, the grounding filter and the
    request/response cycle of [handleSendMessage].

    Conventions.
    - A JavaScript string is a [string] holding its UTF-8 bytes.  Every string
      operation the program uses ([startsWith], [includes], the two anchored
      regular expressions, [trim]) looks for ASCII patterns or for white
      space, so it commutes with the encoding.
    - An optional property ([images?], [web?.uri], ...) is an [option].
    - JavaScript numbers used as indices and lengths are [Z]; the two
      coordinates of a location are binary64 floats.
    - [throw] / [try] / [catch] and the outbound model call are an exception
      monad that also records the requests it issued. *)

From Stdlib Require Import String Ascii List ZArith Bool Lia DecimalString PrimFloat.
From Stdlib Require Import Permutation DecimalPos DecimalZ.
Import ListNotations.

Open Scope string_scope.
Open Scope Z_scope.

(** ** The JavaScript primitives the program relies on *)

Module JS.

(** [!!s] for a string: only the empty string is falsy. *)
Definition truthy (s : string) : bool :=
  match s with EmptyString => false | String _ _ => true end.

(** [s.startsWith(p)]. *)
Definition startsWith (s p : string) : bool := String.prefix p s.

(** [s.includes(p)]. *)
Fixpoint includes (s p : string) : bool :=
  if String.prefix p s then true
  else match s with
       | EmptyString => false
       | String _ r => includes r p
       end.

Definition code (a : ascii) : N := N_of_ascii a.

(** White space and line terminators of ECMAScript, by the length of their
    UTF-8 encoding: U+0009..U+000D, U+0020; U+00A0; U+1680, U+2000..U+200A,
    U+2028, U+2029, U+202F, U+205F, U+3000, U+FEFF. *)
Definition isWs1 (a : ascii) : bool :=
  ((9 <=? code a) && (code a <=? 13))%N || (code a =? 32)%N.

Definition isWs2 (a b : ascii) : bool :=
  ((code a =? 194) && (code b =? 160))%N.

Definition isWs3 (a b c : ascii) : bool :=
  (((code a =? 225) && (code b =? 154) && (code c =? 128))
   || ((code a =? 226) && (code b =? 128)
       && (((128 <=? code c) && (code c <=? 138))
           || (code c =? 168) || (code c =? 169) || (code c =? 175)))
   || ((code a =? 226) && (code b =? 129) && (code c =? 159))
   || ((code a =? 227) && (code b =? 128) && (code c =? 128))
   || ((code a =? 239) && (code b =? 187) && (code c =? 191)))%N.

(** [s.trimStart()]. *)
Fixpoint trimStart (s : string) : string :=
  match s with
  | EmptyString => s
  | String a r =>
      if isWs1 a then trimStart r
      else match r with
           | EmptyString => s
           | String b r2 =>
               if isWs2 a b then trimStart r2
               else match r2 with
                    | EmptyString => s
                    | String c r3 => if isWs3 a b c then trimStart r3 else s
                    end
           end
  end.

(** [s.trimEnd()]: a suffix made of white space only is removed. *)
Fixpoint trimEnd (s : string) : string :=
  match s with
  | EmptyString => EmptyString
  | String a r =>
      if truthy (trimStart s) then String a (trimEnd r) else EmptyString
  end.

(** [s.trim()]. *)
Definition trim (s : string) : string := trimEnd (trimStart s).

(** [\w] without the [u] and [i] flags: [A-Za-z0-9_]. *)
Definition isWord (a : ascii) : bool :=
  (((48 <=? code a) && (code a <=? 57))
   || ((65 <=? code a) && (code a <=? 90))
   || ((97 <=? code a) && (code a <=? 122))
   || (code a =? 95))%N.

(** The longest run of word characters at the head of [s], and the rest. *)
Fixpoint spanWord (s : string) : string * string :=
  match s with
  | EmptyString => (EmptyString, EmptyString)
  | String a r =>
      if isWord a then let '(w, rest) := spanWord r in (String a w, rest)
      else (EmptyString, s)
  end.

(** [s] without the prefix [p], when it starts with it. *)
Fixpoint stripPrefix (p s : string) : option string :=
  match p with
  | EmptyString => Some s
  | String a p' =>
      match s with
      | EmptyString => None
      | String b s' => if Ascii.eqb a b then stripPrefix p' s' else None
      end
  end.

(** The match of [/^data:(image\/\w+);base64,/] at the head of [s]: the
    captured group and what follows the match.  [;] is no word character, so
    the greedy run of [\w+] is the only one that can be followed by it. *)
Definition matchDataImage (s : string) : option (string * string) :=
  match stripPrefix "data:image/" s with
  | None => None
  | Some r =>
      let '(w, r') := spanWord r in
      if truthy w then
        match stripPrefix ";base64," r' with
        | Some rest => Some ("image/" ++ w, rest)
        | None => None
        end
      else None
  end.

(** [s.replace(/^data:image\/\w+;base64,/, "")]. *)
Definition replaceDataImage (s : string) : string :=
  match matchDataImage s with
  | Some (_, rest) => rest
  | None => s
  end.

(** [l.slice(start)]. *)
Definition slice {A} (start : Z) (l : list A) : list A :=
  let len := Z.of_nat (length l) in
  let k := if start <? 0 then Z.max (len + start) 0 else Z.min start len in
  skipn (Z.to_nat k) l.

(** [l.map((x, index) => f x index)], the index counted from [i]. *)
Fixpoint mapFrom {A B} (f : A -> Z -> B) (i : Z) (l : list A) : list B :=
  match l with
  | [] => []
  | x :: r => f x i :: mapFrom f (i + 1) r
  end.

Definition mapi {A B} (f : A -> Z -> B) (l : list A) : list B := mapFrom f 0 l.

(** [n.toString()] for an integer. *)
Definition toString (n : Z) : string := NilZero.string_of_int (Z.to_int n).

(** [l.slice(start, end)]. *)
Definition sliceTo {A} (start stop : Z) (l : list A) : list A :=
  let len := Z.of_nat (length l) in
  let k := if start <? 0 then Z.max (len + start) 0 else Z.min start len in
  let final := if stop <? 0 then Z.max (len + stop) 0 else Z.min stop len in
  firstn (Z.to_nat (final - k)) (skipn (Z.to_nat k) l).

(** [l.filter((x, index) => p x index)], the index counted from [i]. *)
Fixpoint filterFrom {A} (p : A -> Z -> bool) (i : Z) (l : list A) : list A :=
  match l with
  | [] => []
  | x :: r => if p x i then x :: filterFrom p (i + 1) r
              else filterFrom p (i + 1) r
  end.

Definition filteri {A} (p : A -> Z -> bool) (l : list A) : list A :=
  filterFrom p 0 l.

End JS.

(** ** src/types.ts *)

Module types.

Inductive Role := user | model.

Definition Role_eqb (a b : Role) : bool :=
  match a, b with
  | user, user | model, model => true
  | _, _ => false
  end.

(** The grounding metadata is typed [any]; these are the properties read. *)
Record Web := { uri : option string; title : option string }.
Record GroundingChunk := { web : option Web }.
Record GroundingMetadata := { groundingChunks : option (list GroundingChunk) }.

Record Message := {
  id : string;
  role : Role;
  text : string;
  images : option (list string);
  groundingMetadata : option GroundingMetadata;
  isThinking : option bool
}.

Record UserLocation := { latitude : float; longitude : float }.

Inductive AppStatus := IDLE | THINKING | ERROR.

Definition AppStatus_eqb (a b : AppStatus) : bool :=
  match a, b with
  | IDLE, IDLE | THINKING, THINKING | ERROR, ERROR => true
  | _, _ => false
  end.

End types.

(** ** The part of [@google/genai] the service uses *)

Module genai.

Inductive Part :=
| textPart (text : string)
| inlineDataPart (mimeType data : string).

Record Content := { role : types.Role; parts : list Part }.

Inductive Tool := googleMaps.

Record LatLng := { latitude : float; longitude : float }.
Record RetrievalConfig := { latLng : LatLng }.
Record ToolConfig := { retrievalConfig : option RetrievalConfig }.

Record GenerateContentConfig := {
  systemInstruction : string;
  tools : list Tool;
  toolConfig : option ToolConfig
}.

Record GenerateContentParameters := {
  model : string;
  contents : list Content;
  config : GenerateContentConfig
}.

Record Candidate := { groundingMetadata : option types.GroundingMetadata }.

Record GenerateContentResponse := {
  text : option string;
  candidates : option (list Candidate)
}.

Record GoogleGenAI := { apiKey : string }.

End genai.

(** ** Exceptions and outbound requests

    A computation yields the requests it sent to the model, in order, and
    either a value or the message of the [Error] it threw. *)

Module Eff.

Inductive Completion (A : Type) :=
| Normal (a : A)
| Throw (message : string).
Arguments Normal {A} a.
Arguments Throw {A} message.

Definition M (A : Type) : Type :=
  list genai.GenerateContentParameters * Completion A.

Definition ret {A} (a : A) : M A := ([], Normal a).

Definition throw {A} (message : string) : M A := ([], Throw message).

Definition bind {A B} (m : M A) (k : A -> M B) : M B :=
  match m with
  | (sent, Normal a) => let '(sent', r) := k a in ((sent ++ sent')%list, r)
  | (sent, Throw e) => (sent, Throw e)
  end.

Definition tryCatch {A} (m : M A) (handler : string -> M A) : M A :=
  match m with
  | (sent, Normal a) => (sent, Normal a)
  | (sent, Throw e) => let '(sent', r) := handler e in ((sent ++ sent')%list, r)
  end.

Definition requests {A} (m : M A) : list genai.GenerateContentParameters := fst m.
Definition completion {A} (m : M A) : Completion A := snd m.

End Eff.

Notation "x <- m ;; k" := (Eff.bind m (fun x => k))
  (at level 61, m at next level, right associativity).

(** The world outside the program: the credential the bundler put in
    [process.env.API_KEY], and what the hosted model answers to a request. *)
Record Env := {
  API_KEY : option string;
  generateContent :
    genai.GoogleGenAI -> genai.GenerateContentParameters ->
    Eff.Completion genai.GenerateContentResponse
}.

(** ** src/services/geminiService.ts *)

Module geminiService.

Record ChatResponse := {
  text : string;
  groundingMetadata : option types.GroundingMetadata
}.

Definition MAX_HISTORY_MESSAGES : Z := 10.

Definition systemInstruction : string := "
    あなたは日本で最も有名な総合病院のベテラン総合診療医です。
    
    【重要：回答のスタイル】
    - **短く、簡潔に**答えてください。長文は避けてください。
    - 専門用語はなるべく使わず、誰にでもわかる言葉で話してください。
    - 1回の回答で情報を詰め込みすぎず、会話のキャッチボールを大切にしてください。

    【あなたの役割】
    1. 患者（ユーザー）に優しく寄り添う。
    2. 症状を聞き出し、可能性のある原因を考える。
    3. 必要に応じて病院検索ツール（Google Maps）で近くの病院を紹介する。
    4. 画像が送られた場合は、その見た目から所見を述べる。

    ※緊急性が高い（胸痛、呼吸困難など）場合は、すぐに救急車を呼ぶよう伝えてください。
    ※あなたはAIなので確定診断はできません。あくまでアドバイスにとどめてください。
  ".

(** The [inlineData] part built from one image payload. *)
Definition inlineDataOf (img : string) : genai.Part :=
  let base64Data := JS.replaceDataImage img in
  let mimeMatch := JS.matchDataImage img in
  let mimeType :=
    match mimeMatch with Some (m, _) => m | None => "image/jpeg" end in
  genai.inlineDataPart mimeType base64Data.

(** The callback of [recentHistory.map]: the block of one history message. *)
Definition historyContent (recentLength : Z) (msg : types.Message) (index : Z)
  : genai.Content :=
  let parts := [genai.textPart (types.text msg)] in
  let isRecentWithImage := recentLength - 2 <=? index in
  let parts :=
    match types.images msg with
    | Some imgs =>
        if (0 <? Z.of_nat (length imgs)) && isRecentWithImage then
          fold_left
            (fun parts img =>
               if JS.startsWith img "data:" then (parts ++ [inlineDataOf img])%list
               else parts)
            imgs parts
        else parts
    | None => parts
    end in
  {| genai.role := types.role msg; genai.parts := parts |}.

(** The parts of the block of the new turn. *)
Definition currentParts (newMessage : string) (images : list string)
  : list genai.Part :=
  fold_left (fun parts img => (parts ++ [inlineDataOf img])%list)
            images [genai.textPart newMessage].

(** [contents] as it stands when the request is sent. *)
Definition buildContents (history : list types.Message) (newMessage : string)
    (images : list string) : list genai.Content :=
  let recentHistory := JS.slice (- MAX_HISTORY_MESSAGES) history in
  let contents :=
    JS.mapi (historyContent (Z.of_nat (length recentHistory))) recentHistory in
  (contents ++ [{| genai.role := types.user;
                   genai.parts := currentParts newMessage images |}])%list.

Definition buildToolConfig (location : option types.UserLocation)
  : genai.ToolConfig :=
  match location with
  | Some loc =>
      {| genai.retrievalConfig :=
           Some {| genai.latLng :=
                     {| genai.latitude := types.latitude loc;
                        genai.longitude := types.longitude loc |} |} |}
  | None => {| genai.retrievalConfig := None |}
  end.

(** The argument of [ai.models.generateContent]. *)
Definition generateContentParameters (contents : list genai.Content)
    (location : option types.UserLocation)
  : genai.GenerateContentParameters :=
  let tools := [genai.googleMaps] in
  let toolConfig := buildToolConfig location in
  {| genai.model := "gemini-2.5-flash";
     genai.contents := contents;
     genai.config :=
       {| genai.systemInstruction := systemInstruction;
          genai.tools := tools;
          genai.toolConfig :=
            match location with
            | Some _ => Some toolConfig
            | None => None
            end |} |}.

(** [response.text || ""]. *)
Definition responseText (response : genai.GenerateContentResponse) : string :=
  match genai.text response with
  | Some t => if JS.truthy t then t else ""
  | None => ""
  end.

(** [response.candidates?.[0]?.groundingMetadata]. *)
Definition responseGrounding (response : genai.GenerateContentResponse)
  : option types.GroundingMetadata :=
  match genai.candidates response with
  | Some (c :: _) => genai.groundingMetadata c
  | _ => None
  end.

(** What follows the awaited call inside [try]. *)
Definition answer (response : genai.GenerateContentResponse) : ChatResponse :=
  let responseText := responseText response in
  let groundingMetadata := responseGrounding response in
  if negb (JS.truthy responseText)
     && match groundingMetadata with Some _ => false | None => true end
  then {| text := "すみません、うまく聞き取れませんでした。もう一度教えていただけますか？";
          groundingMetadata := None |}
  else {| text := responseText; groundingMetadata := groundingMetadata |}.

Section Service.
Variable env : Env.

Definition getClient : Eff.M genai.GoogleGenAI :=
  match API_KEY env with
  | Some apiKey =>
      if JS.truthy apiKey then Eff.ret {| genai.apiKey := apiKey |}
      else Eff.throw "API Key not found"
  | None => Eff.throw "API Key not found"
  end.

(** [await ai.models.generateContent(params)]. *)
Definition models_generateContent (ai : genai.GoogleGenAI)
    (params : genai.GenerateContentParameters)
  : Eff.M genai.GenerateContentResponse :=
  ([params], generateContent env ai params).

(** [images] is the optional argument, [[]] when it is [undefined];
    [console.error] in the handler leaves no trace in the model. *)
Definition chatWithDoctor (history : list types.Message) (newMessage : string)
    (images : option (list string)) (location : option types.UserLocation)
  : Eff.M ChatResponse :=
  let images := match images with Some l => l | None => [] end in
  ai <- getClient ;;
  let contents := buildContents history newMessage images in
  Eff.tryCatch
    (response <- models_generateContent ai
                   (generateContentParameters contents location) ;;
     Eff.ret (answer response))
    (fun error => Eff.throw "通信エラーが発生しました。もう一度お試しください。").

End Service.

End geminiService.

(** ** src/App.tsx: the state of the component and its handlers *)

Module App.

Definition MAX_TURNS : Z := 10.

Record State := {
  messages : list types.Message;
  inputText : string;
  attachedImages : list string;
  status : types.AppStatus;
  location : option types.UserLocation
}.

Definition welcome : types.Message :=
  {| types.id := "welcome";
     types.role := types.model;
     types.text := "こんにちは。AI総合病院の総合診療科へようこそ。
本日はどのような症状でお悩みですか？
体調や気になること、何でもお話しください。

※画像も2枚まで拝見できます。";
     types.images := None;
     types.groundingMetadata := None;
     types.isThinking := None |}.

(** The state [useState] starts from; the location arrives later, if ever. *)
Definition initial : State :=
  {| messages := [welcome];
     inputText := "";
     attachedImages := [];
     status := types.IDLE;
     location := None |}.

Definition setMessages (f : list types.Message -> list types.Message)
    (st : State) : State :=
  {| messages := f (messages st);
     inputText := inputText st;
     attachedImages := attachedImages st;
     status := status st;
     location := location st |}.

Definition setInputText (s : string) (st : State) : State :=
  {| messages := messages st;
     inputText := s;
     attachedImages := attachedImages st;
     status := status st;
     location := location st |}.

Definition setAttachedImages (l : list string) (st : State) : State :=
  {| messages := messages st;
     inputText := inputText st;
     attachedImages := l;
     status := status st;
     location := location st |}.

Definition setStatus (s : types.AppStatus) (st : State) : State :=
  {| messages := messages st;
     inputText := inputText st;
     attachedImages := attachedImages st;
     status := s;
     location := location st |}.

Definition userMessageCount (messages : list types.Message) : Z :=
  Z.of_nat
    (length (filter (fun m => types.Role_eqb (types.role m) types.user)
                    messages)).

Definition isLimitReached (messages : list types.Message) : bool :=
  MAX_TURNS <=? userMessageCount messages.

(** The condition of the early [return] of [handleSendMessage]. *)
Definition returnsEarly (st : State) : bool :=
  (negb (JS.truthy (JS.trim (inputText st)))
   && (Z.of_nat (length (attachedImages st)) =? 0))
  || types.AppStatus_eqb (status st) types.THINKING
  || isLimitReached (messages st).

Definition userMsg (now : Z) (st : State) : types.Message :=
  {| types.id := JS.toString now;
     types.role := types.user;
     types.text := inputText st;
     types.images :=
       if 0 <? Z.of_nat (length (attachedImages st))
       then Some (attachedImages st) else None;
     types.groundingMetadata := None;
     types.isThinking := None |}.

Definition botMsg (now : Z) (response : geminiService.ChatResponse)
  : types.Message :=
  {| types.id := JS.toString (now + 1);
     types.role := types.model;
     types.text := geminiService.text response;
     types.images := None;
     types.groundingMetadata := geminiService.groundingMetadata response;
     types.isThinking := None |}.

Definition errorMsg (now : Z) : types.Message :=
  {| types.id := JS.toString (now + 1);
     types.role := types.model;
     types.text := "申し訳ありません。通信エラーが発生しました。もう一度お試しください。";
     types.images := None;
     types.groundingMetadata := None;
     types.isThinking := None |}.

(** The state once the four setters before [try] have run: what the
    component shows while the model call is awaited. *)
Definition awaiting (now : Z) (st : State) : State :=
  setStatus types.THINKING
    (setAttachedImages []
       (setInputText ""
          (setMessages (fun prev => (prev ++ [userMsg now st])%list) st))).

(** [try] / [catch] / [finally] around the awaited call. *)
Definition settle (now : Z)
    (outcome : Eff.Completion geminiService.ChatResponse) (st : State)
  : State :=
  let st :=
    match outcome with
    | Eff.Normal response =>
        setMessages (fun prev => (prev ++ [botMsg now response])%list) st
    | Eff.Throw _ =>
        setMessages (fun prev => (prev ++ [errorMsg now])%list) st
    end in
  setStatus types.IDLE st.

Section Handlers.
Variable env : Env.

(** The call [handleSendMessage] awaits: [currentHistory] is the [messages]
    of the render the handler closed over, without the new message. *)
Definition modelCall (now : Z) (st : State) : Eff.M geminiService.ChatResponse :=
  let currentHistory := messages st in
  geminiService.chatWithDoctor env currentHistory
    (types.text (userMsg now st)) (types.images (userMsg now st))
    (location st).

(** [handleSendMessage], from the state of the render it runs in to the
    state after [finally], with the requests sent to the model on the way.
    [now] and [now'] are the two readings of [Date.now()].  The updaters
    passed to [setMessages] run on the latest state, which the model takes
    to be the one the handler left: a second submission during the call is
    stopped by the guard on [status], and no other handler changes the
    log. *)
Definition handleSendMessage (now now' : Z) (st : State)
  : list genai.GenerateContentParameters * State :=
  if returnsEarly st then ([], st)
  else
    let '(sent, outcome) := modelCall now st in
    (sent, settle now' outcome (awaiting now st)).

End Handlers.

(** What [renderGrounding] shows for one chunk: the link and its label. *)
Record MapLink := { href : option string; label : string }.

Definition isMapChunk (c : types.GroundingChunk) : bool :=
  match types.web c with
  | Some w =>
      match types.uri w with
      | Some u => JS.truthy u && JS.includes u "google.com/maps"
      | None => false
      end
  | None => false
  end.

Definition mapChunks (groundingChunks : list types.GroundingChunk)
  : list types.GroundingChunk :=
  filter isMapChunk groundingChunks.

Definition mapLink (chunk : types.GroundingChunk) : MapLink :=
  {| href := match types.web chunk with
             | Some w => types.uri w
             | None => None
             end;
     label := match types.web chunk with
              | Some w =>
                  match types.title w with
                  | Some t => if JS.truthy t then t else "Google Maps"
                  | None => "Google Maps"
                  end
              | None => "Google Maps"
              end |}.

(** [renderGrounding]: [None] for [null], else the links in display order. *)
Definition renderGrounding (metadata : option types.GroundingMetadata)
  : option (list MapLink) :=
  match metadata with
  | None => None
  | Some md =>
      match types.groundingChunks md with
      | None => None
      | Some chunks =>
          let mapChunks := mapChunks chunks in
          if Z.of_nat (length mapChunks) =? 0 then None
          else Some (map mapLink mapChunks)
      end
  end.

Definition setLocation (l : option types.UserLocation) (st : State) : State :=
  {| messages := messages st;
     inputText := inputText st;
     attachedImages := attachedImages st;
     status := status st;
     location := l |}.

(** [handleImageUpload]: the files whose reading it starts.  A file stands
    for the string [readAsDataURL] makes of it; [None] is [e.target.files]
    being [null].  The handler itself sets no state. *)
Definition handleImageUpload (files : option (list string)) (st : State)
  : list string :=
  match files with
  | None => []
  | Some files =>
      let remainingSlots := 2 - Z.of_nat (length (attachedImages st)) in
      let filesToProcess := JS.sliceTo 0 remainingSlots files in
      filesToProcess
  end.

(** [reader.onloadend]: the updater runs on the images attached by then. *)
Definition onloadend (result : string) (st : State) : State :=
  setAttachedImages (attachedImages st ++ [result])%list st.

Definition removeImage (index : Z) (st : State) : State :=
  setAttachedImages
    (JS.filteri (fun _ i => negb (i =? index)) (attachedImages st)) st.

(** What happens to the component, one handler at a time: the text input
    changes, a file finishes loading, an image is removed, the position
    arrives, the form is submitted and its model call settles. *)
Inductive Event :=
| change (value : string)
| loadend (result : string)
| remove (index : Z)
| position (coords : types.UserLocation)
| submit (env : Env) (now now' : Z).

Definition step (ev : Event) (st : State)
  : list genai.GenerateContentParameters * State :=
  match ev with
  | change value => ([], setInputText value st)
  | loadend result => ([], onloadend result st)
  | remove index => ([], removeImage index st)
  | position coords => ([], setLocation (Some coords) st)
  | submit env now now' => handleSendMessage env now now' st
  end.

(** The requests sent and the state reached after a sequence of events. *)
Fixpoint run (evs : list Event) (st : State)
  : list genai.GenerateContentParameters * State :=
  match evs with
  | [] => ([], st)
  | ev :: rest =>
      let '(sent, st1) := step ev st in
      let '(sent', st2) := run rest st1 in
      ((sent ++ sent')%list, st2)
  end.

(** The [disabled] attribute of the send button. *)
Definition sendDisabled (st : State) : bool :=
  (negb (JS.truthy (JS.trim (inputText st)))
   && (Z.of_nat (length (attachedImages st)) =? 0))
  || types.AppStatus_eqb (status st) types.THINKING.

(** The [disabled] attribute of the file input and of its button. *)
Definition uploadDisabled (st : State) : bool :=
  (2 <=? Z.of_nat (length (attachedImages st)))
  || types.AppStatus_eqb (status st) types.THINKING.

(** The footer shows the form rather than the reload button. *)
Definition showsForm (st : State) : bool :=
  if isLimitReached (messages st) then false else true.

End App.

(** ** vite.config.ts: where [process.env.API_KEY] comes from *)

Module viteConfig.

(** The two variables read from what [loadEnv] returns. *)
Record Loaded := { API_KEY : option string; GEMINI_API_KEY : option string }.

(** [a || b] for an optional string [a]. *)
Definition orElse (a : option string) (b : string) : string :=
  match a with
  | Some s => if JS.truthy s then s else b
  | None => b
  end.

(** [env.API_KEY || env.GEMINI_API_KEY || '']. *)
Definition apiKey (env : Loaded) : string :=
  orElse (API_KEY env) (orElse (GEMINI_API_KEY env) "").

(** The world of a bundle built with [define]: [process.env.API_KEY] is the
    string literal [JSON.stringify(apiKey)]. *)
Definition bundle (env : Loaded)
    (generateContent :
       genai.GoogleGenAI -> genai.GenerateContentParameters ->
       Eff.Completion genai.GenerateContentResponse) : Env :=
  Build_Env (Some (apiKey env)) generateContent.

End viteConfig.

(** ** Sample sessions and environments *)

Module Examples.

Definition patient (n : Z) (text : string) (images : option (list string))
  : types.Message :=
  {| types.id := JS.toString n;
     types.role := types.user;
     types.text := text;
     types.images := images;
     types.groundingMetadata := None;
     types.isThinking := None |}.

Definition doctor (n : Z) (text : string) : types.Message :=
  {| types.id := JS.toString n;
     types.role := types.model;
     types.text := text;
     types.images := None;
     types.groundingMetadata := None;
     types.isThinking := None |}.

(** [n] exchanges after the greeting, the question of each with a picture. *)
Fixpoint exchanges (n : nat) : list types.Message :=
  match n with
  | O => []
  | S k =>
      (exchanges k
         ++ [patient (2 * Z.of_nat k) "頭痛がします"
               (Some ["data:image/png;base64,iVBORw0KGgo="]);
             doctor (2 * Z.of_nat k + 1) "いつからですか？"])%list
  end.

Definition session (n : nat) (text : string) (images : list string)
  : App.State :=
  {| App.messages := App.welcome :: exchanges n;
     App.inputText := text;
     App.attachedImages := images;
     App.status := types.IDLE;
     App.location := None |}.

Definition tokyo : types.UserLocation :=
  {| types.latitude := 35.5%float; types.longitude := 139.75%float |}.

Definition clinic : types.GroundingChunk :=
  {| types.web :=
       Some {| types.uri := Some "https://www.google.com/maps/place/clinic";
               types.title := Some "駅前クリニック" |} |}.

Definition article : types.GroundingChunk :=
  {| types.web :=
       Some {| types.uri := Some "https://example.com/headache";
               types.title := Some "頭痛について" |} |}.

Definition nearby : types.GroundingMetadata :=
  {| types.groundingChunks := Some [article; clinic; {| types.web := None |}] |}.

(** The model answers every request with [response]. *)
Definition answering (response : genai.GenerateContentResponse) : Env :=
  {| API_KEY := Some "secret";
     generateContent := fun _ _ => Eff.Normal response |}.

(** The transport fails on every request. *)
Definition offline : Env :=
  {| API_KEY := Some "secret";
     generateContent := fun _ _ => Eff.Throw "Failed to fetch" |}.

(** The bundler found no key and put the empty string in its place. *)
Definition unconfigured : Env :=
  {| API_KEY := Some "";
     generateContent := fun _ _ => Eff.Throw "unreachable" |}.

Definition silence : genai.GenerateContentResponse :=
  {| genai.text := None; genai.candidates := Some [] |}.

Definition placesOnly : genai.GenerateContentResponse :=
  {| genai.text := Some "";
     genai.candidates := Some [{| genai.groundingMetadata := Some nearby |}] |}.

(** The request an accepted submission in state [st] sends. *)
Definition request (st : App.State) : genai.GenerateContentParameters :=
  geminiService.generateContentParameters
    (geminiService.buildContents (App.messages st) (App.inputText st)
                                 (App.attachedImages st))
    (App.location st).

(** A log whose last three entries all carry a picture and a bare link. *)
Definition pictures : list types.Message :=
  [ patient 1 "腕に発疹があります"
      (Some ["data:image/png;base64,AAAA"; "https://example.com/arm.png"]);
    patient 2 "足にもあります"
      (Some ["data:image/jpeg;base64,BBBB"; "https://example.com/leg.png"]);
    patient 3 "背中にもあります"
      (Some ["data:image/webp;base64,CCCC"; "https://example.com/back.png"]) ].

End Examples.

(** ** The vocabulary of the specification *)

Module Spec.

(** The turn count: the number of entries of the log with role [user]. *)
Fixpoint turnCount (log : list types.Message) : nat :=
  match log with
  | [] => O
  | m :: rest =>
      match types.role m with
      | types.user => S (turnCount rest)
      | types.model => turnCount rest
      end
  end.

(** The most recent [n] entries of a log, all of it when it is shorter. *)
Definition mostRecent {A} (n : nat) (log : list A) : list A :=
  skipn (length log - n) log.

Definition isInlineData (p : genai.Part) : bool :=
  match p with
  | genai.inlineDataPart _ _ => true
  | genai.textPart _ => false
  end.

(** The inline-data parts of a block. *)
Definition inlineData (c : genai.Content) : list genai.Part :=
  filter isInlineData (genai.parts c).

(** The payloads that are data-URIs. *)
Definition dataURIs (images : list string) : list string :=
  filter (fun img => JS.startsWith img "data:") images.

(** The busy flag: a model call is in flight. *)
Definition busy (st : App.State) : bool :=
  types.AppStatus_eqb (App.status st) types.THINKING.

(** The blocks of a payload before the block of the new turn. *)
Definition historyPortion (contents : list genai.Content) : list genai.Content :=
  removelast contents.

(** The number of image payloads a message carries. *)
Definition imageCount (msg : types.Message) : nat :=
  length (match types.images msg with Some l => l | None => [] end).

(** The inline-data parts of a whole payload. *)
Definition inlineParts (contents : list genai.Content) : list genai.Part :=
  flat_map inlineData contents.

(** The roles of a log alternate, starting with [first]. *)
Fixpoint alternates (first : types.Role) (log : list types.Message) : bool :=
  match log with
  | [] => true
  | m :: rest =>
      types.Role_eqb (types.role m) first
      && alternates (match first with
                     | types.user => types.model
                     | types.model => types.user
                     end) rest
  end.

(** Every character is a word character, in the sense of [\w]. *)
Fixpoint allWord (s : string) : bool :=
  match s with
  | EmptyString => true
  | String a r => JS.isWord a && allWord r
  end.

(** Every character is a one-byte white space or line terminator. *)
Fixpoint allSpace (s : string) : bool :=
  match s with
  | EmptyString => true
  | String a r => JS.isWs1 a && allSpace r
  end.

(** A session between two submissions: the greeting first, then question
    and answer in turn, at most ten questions, nobody waiting. *)
Definition atRest (st : App.State) : Prop :=
  hd_error (App.messages st) = Some App.welcome
  /\ alternates types.model (App.messages st) = true
  /\ length (App.messages st) = (1 + 2 * turnCount (App.messages st))%nat
  /\ (turnCount (App.messages st) <= 10)%nat
  /\ App.status st = types.IDLE.

(** The grounding chunks of optional metadata, none when there is none. *)
Definition chunks (metadata : option types.GroundingMetadata)
  : list types.GroundingChunk :=
  match metadata with
  | Some md =>
      match types.groundingChunks md with
      | Some l => l
      | None => []
      end
  | None => []
  end.

(** An optional environment variable is unset or empty. *)
Definition unset (v : option string) : Prop := v = None \/ v = Some "".

End Spec.

(** ** Properties *)

(** *** Facts about the primitives *)

Section ListFacts.
Context {A B : Type}.

Lemma slice_negative (n : nat) (l : list A) :
  (0 < n)%nat -> JS.slice (- Z.of_nat n) l = skipn (length l - n) l.
Proof.
  intros Hn. unfold JS.slice.
  destruct (Z.ltb_spec (- Z.of_nat n) 0) as [_|H]; [|lia].
  f_equal. lia.
Qed.

Lemma slice_negative_length (n : nat) (l : list A) :
  (0 < n)%nat -> length (JS.slice (- Z.of_nat n) l) = Nat.min (length l) n.
Proof.
  intros Hn. rewrite slice_negative by assumption.
  rewrite length_skipn. lia.
Qed.

Lemma mapFrom_length (f : A -> Z -> B) (l : list A) :
  forall i, length (JS.mapFrom f i l) = length l.
Proof.
  induction l as [|x r IH]; intros i; simpl; [reflexivity|].
  now rewrite IH.
Qed.

Lemma mapFrom_nth_error (f : A -> Z -> B) (l : list A) :
  forall i k,
    nth_error (JS.mapFrom f i l) k
    = option_map (fun x => f x (i + Z.of_nat k)) (nth_error l k).
Proof.
  induction l as [|x r IH]; intros i k.
  - destruct k; reflexivity.
  - destruct k as [|k]; simpl.
    + now rewrite Z.add_0_r.
    + rewrite IH. destruct (nth_error r k); simpl; [|reflexivity].
      do 2 f_equal. lia.
Qed.

Lemma mapi_nth_error (f : A -> Z -> B) (l : list A) (k : nat) :
  nth_error (JS.mapi f l) k
  = option_map (fun x => f x (Z.of_nat k)) (nth_error l k).
Proof. unfold JS.mapi. now rewrite mapFrom_nth_error. Qed.

Lemma filter_twice (p : A -> bool) (l : list A) :
  filter p (filter p l) = filter p l.
Proof.
  induction l as [|x r IH]; simpl; [reflexivity|].
  destruct (p x) eqn:Hp; simpl; [rewrite Hp, IH|]; auto.
Qed.

End ListFacts.

(** *** The service, one case at a time *)

Section ServiceFacts.
Variable env : Env.

Lemma getClient_cases :
  (exists key, API_KEY env = Some key /\ JS.truthy key = true
               /\ geminiService.getClient env
                  = Eff.ret {| genai.apiKey := key |})
  \/ ((API_KEY env = None \/ API_KEY env = Some "")
      /\ geminiService.getClient env = Eff.throw "API Key not found").
Proof.
  unfold geminiService.getClient.
  destruct (API_KEY env) as [key|]; [|right; auto].
  destruct key as [|a r]; simpl; [right; auto|].
  left. exists (String a r). auto.
Qed.

(** With a credential, one request goes out and its outcome decides. *)
Lemma chatWithDoctor_with_key key history newMessage images location :
  API_KEY env = Some key -> JS.truthy key = true ->
  let params :=
    geminiService.generateContentParameters
      (geminiService.buildContents history newMessage
         (match images with Some l => l | None => [] end))
      location in
  geminiService.chatWithDoctor env history newMessage images location
  = ([params],
     match generateContent env {| genai.apiKey := key |} params with
     | Eff.Normal response => Eff.Normal (geminiService.answer response)
     | Eff.Throw _ =>
         Eff.Throw "通信エラーが発生しました。もう一度お試しください。"
     end).
Proof.
  intros Hkey Htruthy params.
  unfold geminiService.chatWithDoctor, geminiService.getClient.
  rewrite Hkey, Htruthy. fold params.
  unfold geminiService.models_generateContent. simpl.
  destruct (generateContent env _ params); reflexivity.
Qed.

(** Without one, [getClient] throws before anything is sent. *)
Lemma chatWithDoctor_without_key history newMessage images location :
  API_KEY env = None \/ API_KEY env = Some "" ->
  geminiService.chatWithDoctor env history newMessage images location
  = ([], Eff.Throw "API Key not found").
Proof.
  intros [H|H]; unfold geminiService.chatWithDoctor, geminiService.getClient;
    rewrite H; reflexivity.
Qed.

(** Whatever happens, a call to the service sends at most one request, and
    a request it sends carries the payload of [buildContents]. *)
Lemma chatWithDoctor_requests history newMessage images location :
  let params :=
    geminiService.generateContentParameters
      (geminiService.buildContents history newMessage
         (match images with Some l => l | None => [] end))
      location in
  let sent :=
    Eff.requests
      (geminiService.chatWithDoctor env history newMessage images location) in
  sent = [] \/ sent = [params].
Proof.
  intros params sent. subst sent.
  destruct getClient_cases as [(key & Hk & Ht & _)|[Hno _]].
  - right. unfold params.
    now rewrite (chatWithDoctor_with_key key _ _ _ _ Hk Ht).
  - left. now rewrite chatWithDoctor_without_key.
Qed.

End ServiceFacts.

(** *** The handler *)

Section HandlerFacts.
Variable env : Env.

Lemma userMsg_images now st :
  match types.images (App.userMsg now st) with
  | Some l => l
  | None => []
  end = App.attachedImages st.
Proof.
  unfold App.userMsg; simpl.
  destruct (App.attachedImages st); reflexivity.
Qed.

(** The requests of an accepted submission are those of its model call. *)
Lemma handleSendMessage_accepted now now' st :
  App.returnsEarly st = false ->
  App.handleSendMessage env now now' st
  = (Eff.requests (App.modelCall env now st),
     App.settle now' (Eff.completion (App.modelCall env now st))
                (App.awaiting now st)).
Proof.
  intros H. unfold App.handleSendMessage. rewrite H.
  destruct (App.modelCall env now st); reflexivity.
Qed.

Lemma modelCall_requests now st :
  let params :=
    geminiService.generateContentParameters
      (geminiService.buildContents (App.messages st) (App.inputText st)
                                   (App.attachedImages st))
      (App.location st) in
  Eff.requests (App.modelCall env now st) = []
  \/ Eff.requests (App.modelCall env now st) = [params].
Proof.
  intros params. unfold App.modelCall.
  pose proof (chatWithDoctor_requests env (App.messages st)
                (types.text (App.userMsg now st))
                (types.images (App.userMsg now st)) (App.location st)) as H.
  cbv zeta in H. rewrite userMsg_images in H. exact H.
Qed.

Lemma userMessageCount_app l1 l2 :
  App.userMessageCount (l1 ++ l2)
  = App.userMessageCount l1 + App.userMessageCount l2.
Proof.
  unfold App.userMessageCount. rewrite filter_app, length_app. lia.
Qed.

End HandlerFacts.

(** *** The turn limiter *)

Lemma userMessageCount_turnCount (log : list types.Message) :
  App.userMessageCount log = Z.of_nat (Spec.turnCount log).
Proof.
  unfold App.userMessageCount. f_equal.
  induction log as [|m rest IH]; simpl; [reflexivity|].
  destruct (types.role m); simpl; now rewrite IH.
Qed.

Lemma isLimitReached_turnCount (log : list types.Message) :
  App.isLimitReached log = true <-> (10 <= Spec.turnCount log)%nat.
Proof.
  unfold App.isLimitReached, App.MAX_TURNS.
  rewrite userMessageCount_turnCount, Z.leb_le. lia.
Qed.

(** C1. For every session log the count the limiter uses is the number of
    entries with role [user]; putting the greeting in front of a log does
    not change it; and the limit-reached flag is [true] exactly when that
    number is at least 10. *)
Theorem turn_count_and_limit (log : list types.Message) :
  App.userMessageCount log = Z.of_nat (Spec.turnCount log)
  /\ App.userMessageCount (App.welcome :: log) = App.userMessageCount log
  /\ (App.isLimitReached log = true <-> (10 <= Spec.turnCount log)%nat).
Proof.
  split; [apply userMessageCount_turnCount|]. split.
  - rewrite !userMessageCount_turnCount. reflexivity.
  - unfold App.isLimitReached, App.MAX_TURNS.
    rewrite userMessageCount_turnCount, Z.leb_le. lia.
Qed.

(** C2. Once the log holds at least 10 user messages, a submission is a
    no-op whatever text and images it carries: nothing is sent to the model,
    the state is the one before, so the log and its length are unchanged,
    and a session that was not busy is not busy afterwards. *)
Theorem submit_noop_at_limit (env : Env) (now now' : Z) (st : App.State)
    (text : string) (images : list string) :
  (10 <= Spec.turnCount (App.messages st))%nat ->
  let st0 := App.setAttachedImages images (App.setInputText text st) in
  let result := App.handleSendMessage env now now' st0 in
  fst result = []
  /\ snd result = st0
  /\ App.messages (snd result) = App.messages st
  /\ length (App.messages (snd result)) = length (App.messages st)
  /\ (Spec.busy st = false -> Spec.busy (snd result) = false).
Proof.
  intros Hturns st0 result.
  assert (Hlimit : App.isLimitReached (App.messages st0) = true)
    by (apply isLimitReached_turnCount; exact Hturns).
  assert (Hres : result = ([], st0)).
  { unfold result, App.handleSendMessage, App.returnsEarly.
    rewrite Hlimit, orb_true_r. reflexivity. }
  rewrite Hres. simpl. auto.
Qed.

Lemma submit_noop_at_limit_witness :
  (10 <= Spec.turnCount (App.messages (Examples.session 10 "" [])))%nat
  /\ fst (App.handleSendMessage (Examples.answering Examples.silence) 5 6
            (Examples.session 10 "まだ痛いです" ["data:image/png;base64,AAAA"]))
     = []
  /\ snd (App.handleSendMessage (Examples.answering Examples.silence) 5 6
            (Examples.session 10 "まだ痛いです" ["data:image/png;base64,AAAA"]))
     = Examples.session 10 "まだ痛いです" ["data:image/png;base64,AAAA"].
Proof.
  assert (H : (10 <= Spec.turnCount (App.messages (Examples.session 10 "" [])))%nat)
    by (vm_compute; lia).
  split; [exact H|].
  pose proof (submit_noop_at_limit (Examples.answering Examples.silence) 5 6
                (Examples.session 10 "" []) "まだ痛いです"
                ["data:image/png;base64,AAAA"] H) as (Hsent & Hstate & _).
  split; [exact Hsent | exact Hstate].
Defined.

(** *** The grounding filter *)

(** C9. The filter of [renderGrounding] keeps exactly the chunks whose web
    URI matches the map pattern, and filtering its own output changes
    nothing, neither in the chunks kept nor in what is rendered. *)
Theorem grounding_filter_idempotent (chunks : list types.GroundingChunk) :
  App.mapChunks (App.mapChunks chunks) = App.mapChunks chunks
  /\ (forall c, In c (App.mapChunks chunks)
                <-> In c chunks /\ App.isMapChunk c = true)
  /\ App.renderGrounding
       (Some {| types.groundingChunks := Some (App.mapChunks chunks) |})
     = App.renderGrounding (Some {| types.groundingChunks := Some chunks |}).
Proof.
  assert (H : App.mapChunks (App.mapChunks chunks) = App.mapChunks chunks)
    by apply filter_twice.
  split; [exact H|]. split.
  - intros c. apply filter_In.
  - unfold App.renderGrounding. simpl. now rewrite H.
Qed.

(** *** The context window *)

Section WindowFacts.

Lemma push_data_uris (images : list string) :
  forall parts,
    fold_left
      (fun parts img =>
         if JS.startsWith img "data:"
         then (parts ++ [geminiService.inlineDataOf img])%list
         else parts)
      images parts
    = (parts ++ map geminiService.inlineDataOf (Spec.dataURIs images))%list.
Proof.
  induction images as [|img rest IH]; intros parts; simpl.
  - now rewrite app_nil_r.
  - destruct (JS.startsWith img "data:"); rewrite IH; simpl;
      [now rewrite <- app_assoc | reflexivity].
Qed.

Lemma push_all (images : list string) :
  forall parts,
    fold_left
      (fun parts img => (parts ++ [geminiService.inlineDataOf img])%list)
      images parts
    = (parts ++ map geminiService.inlineDataOf images)%list.
Proof.
  induction images as [|img rest IH]; intros parts; simpl.
  - now rewrite app_nil_r.
  - rewrite IH. now rewrite <- app_assoc.
Qed.

Lemma currentParts_eq newMessage images :
  geminiService.currentParts newMessage images
  = genai.textPart newMessage :: map geminiService.inlineDataOf images.
Proof. unfold geminiService.currentParts. now rewrite push_all. Qed.

Lemma historyContent_role n msg index :
  genai.role (geminiService.historyContent n msg index) = types.role msg.
Proof. reflexivity. Qed.

(** Below the last two positions only the text is forwarded. *)
Lemma historyContent_early n msg index :
  index < n - 2 ->
  genai.parts (geminiService.historyContent n msg index)
  = [genai.textPart (types.text msg)].
Proof.
  intros H. unfold geminiService.historyContent. cbn [genai.parts].
  destruct (Z.leb_spec (n - 2) index); [lia|].
  destruct (types.images msg); [|reflexivity].
  now rewrite andb_false_r.
Qed.

(** In the last two positions the data-URIs follow the text. *)
Lemma historyContent_recent n msg index :
  n - 2 <= index ->
  genai.parts (geminiService.historyContent n msg index)
  = genai.textPart (types.text msg)
    :: map geminiService.inlineDataOf
         (Spec.dataURIs
            (match types.images msg with Some l => l | None => [] end)).
Proof.
  intros H. unfold geminiService.historyContent. cbn [genai.parts].
  destruct (Z.leb_spec (n - 2) index); [|lia].
  destruct (types.images msg) as [[|img rest]|]; try reflexivity.
  rewrite andb_true_r.
  change (0 <? Z.of_nat (length (img :: rest))) with true. cbv iota.
  now rewrite push_data_uris.
Qed.

Lemma historyContent_text n msg index :
  hd_error (genai.parts (geminiService.historyContent n msg index))
  = Some (genai.textPart (types.text msg)).
Proof.
  destruct (Z.lt_ge_cases index (n - 2)) as [H|H].
  - now rewrite historyContent_early.
  - now rewrite historyContent_recent.
Qed.

Lemma Forall2_mapFrom {A B} (P : A -> B -> Prop) (f : A -> Z -> B) l :
  (forall x i, P x (f x i)) -> forall i, Forall2 P l (JS.mapFrom f i l).
Proof.
  intros HP. induction l as [|x r IH]; intros i; simpl; constructor; auto.
Qed.

(** The payload: one block per entry of the window, then the new turn. *)
Lemma buildContents_eq history newMessage images :
  let window := Spec.mostRecent 10 history in
  geminiService.buildContents history newMessage images
  = (JS.mapi (geminiService.historyContent (Z.of_nat (length window))) window
     ++ [{| genai.role := types.user;
            genai.parts :=
              genai.textPart newMessage
              :: map geminiService.inlineDataOf images |}])%list.
Proof.
  intros window. unfold geminiService.buildContents.
  change (- geminiService.MAX_HISTORY_MESSAGES) with (- Z.of_nat 10).
  rewrite slice_negative by lia. fold (Spec.mostRecent 10 history).
  fold window. now rewrite currentParts_eq.
Qed.

Lemma mostRecent_length {A} n (log : list A) :
  length (Spec.mostRecent n log) = Nat.min (length log) n.
Proof. unfold Spec.mostRecent. rewrite length_skipn. lia. Qed.

End WindowFacts.

(** A request sent by an accepted submission carries the payload built from
    the log, the text and the images of the state the handler ran in. *)
Lemma accepted_request env now now' st req :
  App.returnsEarly st = false ->
  In req (fst (App.handleSendMessage env now now' st)) ->
  genai.contents req
  = geminiService.buildContents (App.messages st) (App.inputText st)
                                (App.attachedImages st).
Proof.
  intros Hacc Hin. rewrite handleSendMessage_accepted in Hin by exact Hacc.
  simpl in Hin.
  destruct (modelCall_requests env now st) as [H|H]; rewrite H in Hin.
  - destruct Hin.
  - destruct Hin as [<-|[]]. reflexivity.
Qed.

(** With a credential an accepted submission sends exactly one request. *)
Lemma accepted_sends_one env now now' st key :
  App.returnsEarly st = false ->
  API_KEY env = Some key -> JS.truthy key = true ->
  fst (App.handleSendMessage env now now' st)
  = [geminiService.generateContentParameters
       (geminiService.buildContents (App.messages st) (App.inputText st)
                                    (App.attachedImages st))
       (App.location st)].
Proof.
  intros Hacc Hk Ht. rewrite handleSendMessage_accepted by exact Hacc.
  unfold App.modelCall.
  rewrite (chatWithDoctor_with_key env key _ _ _ _ Hk Ht).
  cbv zeta. rewrite userMsg_images. reflexivity.
Qed.

(** C3. In the payload of an accepted submission the blocks before the block
    of the new turn are, one for one and in order, the most recent
    min(length, 10) messages of the log the handler ran in, which does not
    yet hold the new message: each block has the role and starts with the
    text of its message, and what the window leaves out is the oldest part
    of the log.  A log of 11 messages gives 10 history blocks. *)
Theorem history_window (env : Env) (now now' : Z) (st : App.State)
    (req : genai.GenerateContentParameters) :
  App.returnsEarly st = false ->
  In req (fst (App.handleSendMessage env now now' st)) ->
  let log := App.messages st in
  let history := Spec.historyPortion (genai.contents req) in
  length history = Nat.min (length log) 10
  /\ Forall2
       (fun msg block =>
          genai.role block = types.role msg
          /\ hd_error (genai.parts block)
             = Some (genai.textPart (types.text msg)))
       (Spec.mostRecent 10 log) history
  /\ (firstn (length log - 10) log ++ Spec.mostRecent 10 log)%list = log
  /\ (length log = 11%nat -> length history = 10%nat).
Proof.
  intros Hacc Hin log history.
  assert (Hh : history
               = JS.mapi (geminiService.historyContent
                            (Z.of_nat (length (Spec.mostRecent 10 log))))
                         (Spec.mostRecent 10 log)).
  { unfold history, Spec.historyPortion.
    rewrite (accepted_request env now now' st req Hacc Hin).
    rewrite buildContents_eq. cbv zeta. apply removelast_last. }
  assert (Hlen : length history = Nat.min (length log) 10).
  { rewrite Hh. unfold JS.mapi.
    now rewrite mapFrom_length, mostRecent_length. }
  split; [exact Hlen|]. split; [|split].
  - rewrite Hh. unfold JS.mapi. apply Forall2_mapFrom.
    intros msg i. split;
      [apply historyContent_role | apply historyContent_text].
  - apply firstn_skipn.
  - intros H11. rewrite Hlen, H11. reflexivity.
Qed.

Lemma history_window_witness :
  App.returnsEarly (Examples.session 5 "熱もあります" []) = false
  /\ length (App.messages (Examples.session 5 "熱もあります" [])) = 11%nat
  /\ length (Spec.historyPortion
               (genai.contents
                  (Examples.request (Examples.session 5 "熱もあります" []))))
     = 10%nat.
Proof.
  assert (Hacc : App.returnsEarly (Examples.session 5 "熱もあります" []) = false)
    by reflexivity.
  assert (H11 : length (App.messages (Examples.session 5 "熱もあります" []))
                = 11%nat) by reflexivity.
  split; [exact Hacc|]. split; [exact H11|].
  refine (proj2 (proj2 (proj2
            (history_window (Examples.answering Examples.silence) 5 6
               (Examples.session 5 "熱もあります" [])
               (Examples.request (Examples.session 5 "熱もあります" []))
               Hacc _))) H11).
  left. reflexivity.
Defined.

(** C4. In every request the service sends, the block of a message of the
    window carries inline image data only if the message is in one of the
    last two positions of the window: at an earlier position the block is
    the text alone, whatever images the message has, and in the last two
    positions the text is followed by the message's data-URI images. *)
Theorem history_images_last_two (env : Env) (history : list types.Message)
    (newMessage : string) (images : option (list string))
    (location : option types.UserLocation)
    (req : genai.GenerateContentParameters) (i : nat) (msg : types.Message) :
  In req (Eff.requests
            (geminiService.chatWithDoctor env history newMessage images
                                          location)) ->
  let window := Spec.mostRecent 10 history in
  nth_error window i = Some msg ->
  exists block,
    nth_error (genai.contents req) i = Some block
    /\ ((i + 2 < length window)%nat ->
        genai.parts block = [genai.textPart (types.text msg)])
    /\ (Spec.inlineData block <> [] -> (length window <= i + 2)%nat)
    /\ ((length window <= i + 2)%nat ->
        genai.parts block
        = genai.textPart (types.text msg)
          :: map geminiService.inlineDataOf
               (Spec.dataURIs
                  (match types.images msg with Some l => l | None => [] end))).
Proof.
  intros Hin window Hmsg.
  assert (Hi : (i < length window)%nat)
    by (apply nth_error_Some; rewrite Hmsg; discriminate).
  assert (Hreq : genai.contents req
                 = geminiService.buildContents history newMessage
                     (match images with Some l => l | None => [] end)).
  { destruct (chatWithDoctor_requests env history newMessage images location)
      as [H|H]; rewrite H in Hin.
    - destruct Hin.
    - destruct Hin as [<-|[]]. reflexivity. }
  set (n := Z.of_nat (length window)).
  exists (geminiService.historyContent n msg (Z.of_nat i)).
  assert (Hearly : (i + 2 < length window)%nat ->
                   genai.parts (geminiService.historyContent n msg (Z.of_nat i))
                   = [genai.textPart (types.text msg)]).
  { intros H. apply historyContent_early. unfold n. lia. }
  split; [|split; [exact Hearly|split]].
  - rewrite Hreq, buildContents_eq. cbv zeta. fold window. fold n.
    rewrite nth_error_app1
      by (unfold JS.mapi; rewrite mapFrom_length; exact Hi).
    now rewrite mapi_nth_error, Hmsg.
  - intros Hinline.
    destruct (Nat.le_gt_cases (length window) (i + 2)) as [H|H]; [exact H|].
    exfalso. apply Hinline. unfold Spec.inlineData.
    now rewrite (Hearly H).
  - intros H. apply historyContent_recent. unfold n. lia.
Qed.

Lemma history_images_last_two_witness :
  nth_error (Spec.mostRecent 10 Examples.pictures) 0
  = Some (Examples.patient 1 "腕に発疹があります"
            (Some ["data:image/png;base64,AAAA"; "https://example.com/arm.png"]))
  /\ exists block,
       nth_error
         (genai.contents
            (geminiService.generateContentParameters
               (geminiService.buildContents Examples.pictures "薬はありますか" [])
               None)) 0 = Some block
       /\ genai.parts block = [genai.textPart "腕に発疹があります"].
Proof.
  split; [reflexivity|].
  destruct (history_images_last_two (Examples.answering Examples.silence)
              Examples.pictures "薬はありますか" None None
              (geminiService.generateContentParameters
                 (geminiService.buildContents Examples.pictures "薬はありますか" [])
                 None)
              0 (Examples.patient 1 "腕に発疹があります"
                   (Some ["data:image/png;base64,AAAA";
                          "https://example.com/arm.png"])))
    as (block & Hnth & Hearly & _).
  - left. reflexivity.
  - reflexivity.
  - exists block. split; [exact Hnth|]. apply Hearly. simpl. lia.
Defined.

(** *** The block of the new turn *)

(** C5. The last block of the payload of an accepted submission is the new
    turn: its text followed by one inline-data part for every attached
    image, all of them and in order, whatever the length of the log; and a
    submission with images and empty text is accepted by an idle session
    below the limit. *)
Theorem new_turn_images_all_sent (env : Env) (now now' : Z) (st : App.State)
    (req : genai.GenerateContentParameters) :
  App.returnsEarly st = false ->
  In req (fst (App.handleSendMessage env now now' st)) ->
  (exists history final,
      genai.contents req = (history ++ [final])%list
      /\ genai.role final = types.user
      /\ genai.parts final
         = genai.textPart (App.inputText st)
           :: map geminiService.inlineDataOf (App.attachedImages st)
      /\ Spec.inlineData final
         = map geminiService.inlineDataOf (App.attachedImages st)
      /\ length (Spec.inlineData final) = length (App.attachedImages st))
  /\ (forall st',
         App.inputText st' = "" ->
         App.attachedImages st' <> [] ->
         App.status st' <> types.THINKING ->
         App.isLimitReached (App.messages st') = false ->
         App.returnsEarly st' = false).
Proof.
  intros Hacc Hin. split.
  - rewrite (accepted_request env now now' st req Hacc Hin).
    rewrite buildContents_eq. cbv zeta.
    eexists. eexists. split; [reflexivity|]. cbn [genai.role genai.parts].
    assert (Hinl : forall imgs,
               filter Spec.isInlineData (map geminiService.inlineDataOf imgs)
               = map geminiService.inlineDataOf imgs).
    { induction imgs as [|img r IH]; simpl; [reflexivity|]. now rewrite IH. }
    unfold Spec.inlineData. cbn [genai.parts filter Spec.isInlineData].
    rewrite Hinl, length_map. auto.
  - intros st' Htext Himgs Hstatus Hlimit. unfold App.returnsEarly.
    rewrite Hlimit, Htext.
    destruct (App.attachedImages st') as [|img r]; [congruence|].
    destruct (App.status st'); try congruence; reflexivity.
Qed.

Lemma new_turn_images_all_sent_witness :
  App.returnsEarly
    (Examples.session 6 ""
       ["data:image/png;base64,AAAA"; "data:image/jpeg;base64,BBBB"]) = false
  /\ exists history final,
       genai.contents
         (Examples.request
            (Examples.session 6 ""
               ["data:image/png;base64,AAAA"; "data:image/jpeg;base64,BBBB"]))
       = (history ++ [final])%list
       /\ genai.parts final
          = [genai.textPart "";
             genai.inlineDataPart "image/png" "AAAA";
             genai.inlineDataPart "image/jpeg" "BBBB"].
Proof.
  assert (Hacc : App.returnsEarly
                   (Examples.session 6 ""
                      ["data:image/png;base64,AAAA";
                       "data:image/jpeg;base64,BBBB"]) = false)
    by reflexivity.
  split; [exact Hacc|].
  destruct (new_turn_images_all_sent (Examples.answering Examples.silence) 5 6
              (Examples.session 6 ""
                 ["data:image/png;base64,AAAA"; "data:image/jpeg;base64,BBBB"])
              (Examples.request
                 (Examples.session 6 ""
                    ["data:image/png;base64,AAAA";
                     "data:image/jpeg;base64,BBBB"]))
              Hacc (or_introl eq_refl))
    as ((history & final & Hc & _ & Hparts & _) & _).
  exists history, final. split; [exact Hc | exact Hparts].
Defined.

(** C6. The new turn's images are forwarded without the data-URI test that
    the images of the history go through.  The same bare link is dropped
    from the block of a history message in the last position of the window
    and sent as inline data, under the default MIME type and with the link
    itself as its data, in the block of the new turn. *)
Theorem new_turn_bare_link_forwarded :
  let link := "https://example.com/rash.png" in
  Eff.requests
    (geminiService.chatWithDoctor (Examples.answering Examples.silence)
       [Examples.patient 1 "発疹があります" (Some [link])] ""
       (Some [link]) None)
  = [geminiService.generateContentParameters
       [ {| genai.role := types.user;
            genai.parts := [genai.textPart "発疹があります"] |};
         {| genai.role := types.user;
            genai.parts := [genai.textPart "";
                            genai.inlineDataPart "image/jpeg" link] |} ]
       None].
Proof. reflexivity. Qed.

(** *** Failures and empty answers *)

(** A transport error makes the model call throw, after one request. *)
Lemma transport_error_throws env now st key message :
  API_KEY env = Some key -> JS.truthy key = true ->
  generateContent env {| genai.apiKey := key |}
    (geminiService.generateContentParameters
       (geminiService.buildContents (App.messages st) (App.inputText st)
                                    (App.attachedImages st))
       (App.location st))
  = Eff.Throw message ->
  exists params,
    App.modelCall env now st
    = ([params],
       Eff.Throw "通信エラーが発生しました。もう一度お試しください。").
Proof.
  intros Hk Ht Hfail. unfold App.modelCall.
  rewrite (chatWithDoctor_with_key env key _ _ _ _ Hk Ht). cbv zeta.
  rewrite userMsg_images.
  change (types.text (App.userMsg now st)) with (App.inputText st).
  rewrite Hfail. eexists. reflexivity.
Qed.

(** A missing credential makes it throw before any request. *)
Lemma missing_credential_throws env now st :
  API_KEY env = None \/ API_KEY env = Some "" ->
  App.modelCall env now st = ([], Eff.Throw "API Key not found").
Proof. intros H. unfold App.modelCall. now apply chatWithDoctor_without_key. Qed.

(** C7. When the model call of an accepted submission throws, the log ends
    up as the log before, the user message and one model-role message with
    the fixed fallback text; the user message stays, the count of user
    turns is the one reached when the user message was appended, at most
    one request was sent, and the session, busy while the call was awaited,
    is idle again. *)
Theorem fallback_on_failure (env : Env) (now now' : Z) (st : App.State)
    (message : string) :
  App.returnsEarly st = false ->
  Eff.completion (App.modelCall env now st) = Eff.Throw message ->
  let result := App.handleSendMessage env now now' st in
  let log' := App.messages (snd result) in
  exists fallback,
    log' = (App.messages (App.awaiting now st) ++ [fallback])%list
    /\ App.messages (App.awaiting now st)
       = (App.messages st ++ [App.userMsg now st])%list
    /\ types.role fallback = types.model
    /\ types.text fallback
       = "申し訳ありません。通信エラーが発生しました。もう一度お試しください。"
    /\ App.userMessageCount log'
       = App.userMessageCount (App.messages (App.awaiting now st))
    /\ App.userMessageCount log' = App.userMessageCount (App.messages st) + 1
    /\ (length (fst result) <= 1)%nat
    /\ Spec.busy (App.awaiting now st) = true
    /\ Spec.busy (snd result) = false
    /\ App.status (snd result) = types.IDLE.
Proof.
  intros Hacc Hthrow result log'.
  assert (Hres : result
                 = (Eff.requests (App.modelCall env now st),
                    App.settle now' (Eff.Throw message) (App.awaiting now st))).
  { unfold result. rewrite handleSendMessage_accepted by exact Hacc.
    now rewrite Hthrow. }
  exists (App.errorMsg now').
  assert (Hlog : log' = (App.messages (App.awaiting now st)
                         ++ [App.errorMsg now'])%list)
    by (unfold log'; rewrite Hres; reflexivity).
  assert (Hcount : App.userMessageCount log'
                   = App.userMessageCount (App.messages (App.awaiting now st))).
  { rewrite Hlog, userMessageCount_app.
    change (App.userMessageCount [App.errorMsg now']) with 0. lia. }
  repeat split; try reflexivity; try assumption.
  - rewrite Hcount.
    change (App.messages (App.awaiting now st))
      with (App.messages st ++ [App.userMsg now st])%list.
    rewrite userMessageCount_app. reflexivity.
  - rewrite Hres. cbn [fst].
    destruct (modelCall_requests env now st) as [H|H]; rewrite H; simpl; lia.
  - rewrite Hres. reflexivity.
  - rewrite Hres. reflexivity.
Qed.

Lemma fallback_on_failure_witness :
  App.returnsEarly (Examples.session 2 "頭痛がします" []) = false
  /\ Eff.completion
       (App.modelCall Examples.offline 5 (Examples.session 2 "頭痛がします" []))
     = Eff.Throw "通信エラーが発生しました。もう一度お試しください。"
  /\ exists fallback,
       App.messages
         (snd (App.handleSendMessage Examples.offline 5 6
                 (Examples.session 2 "頭痛がします" [])))
       = (App.messages (Examples.session 2 "頭痛がします" [])
          ++ [App.userMsg 5 (Examples.session 2 "頭痛がします" []); fallback])%list
       /\ types.text fallback
          = "申し訳ありません。通信エラーが発生しました。もう一度お試しください。".
Proof.
  assert (Hacc : App.returnsEarly (Examples.session 2 "頭痛がします" []) = false)
    by reflexivity.
  assert (Hthrow : Eff.completion
                     (App.modelCall Examples.offline 5
                        (Examples.session 2 "頭痛がします" []))
                   = Eff.Throw "通信エラーが発生しました。もう一度お試しください。")
    by reflexivity.
  split; [exact Hacc|]. split; [exact Hthrow|].
  destruct (fallback_on_failure Examples.offline 5 6
              (Examples.session 2 "頭痛がします" []) _ Hacc Hthrow)
    as (fallback & Hlog & Hawait & _ & Htext & _).
  exists fallback. split; [|exact Htext].
  rewrite Hlog, Hawait, <- app_assoc. reflexivity.
Defined.

(** C8. When the request goes through and the response has neither text nor
    grounding metadata, the service does not throw: it returns the fixed
    clarification text, with no metadata. *)
Theorem clarification_on_empty_response (env : Env) (key : string)
    (history : list types.Message) (newMessage : string)
    (images : option (list string)) (location : option types.UserLocation)
    (response : genai.GenerateContentResponse) :
  API_KEY env = Some key -> JS.truthy key = true ->
  generateContent env {| genai.apiKey := key |}
    (geminiService.generateContentParameters
       (geminiService.buildContents history newMessage
          (match images with Some l => l | None => [] end))
       location)
  = Eff.Normal response ->
  genai.text response = None \/ genai.text response = Some "" ->
  geminiService.responseGrounding response = None ->
  Eff.completion
    (geminiService.chatWithDoctor env history newMessage images location)
  = Eff.Normal
      {| geminiService.text :=
           "すみません、うまく聞き取れませんでした。もう一度教えていただけますか？";
         geminiService.groundingMetadata := None |}.
Proof.
  intros Hk Ht Hok Htext Hground.
  rewrite (chatWithDoctor_with_key env key _ _ _ _ Hk Ht). cbv zeta.
  rewrite Hok. unfold Eff.completion, snd. f_equal.
  unfold geminiService.answer, geminiService.responseText.
  rewrite Hground. destruct Htext as [-> | ->]; reflexivity.
Qed.

Lemma clarification_on_empty_response_witness :
  Eff.completion
    (geminiService.chatWithDoctor (Examples.answering Examples.silence)
       [App.welcome] "頭痛がします" None None)
  = Eff.Normal
      {| geminiService.text :=
           "すみません、うまく聞き取れませんでした。もう一度教えていただけますか？";
         geminiService.groundingMetadata := None |}.
Proof.
  apply (clarification_on_empty_response (Examples.answering Examples.silence)
           "secret" [App.welcome] "頭痛がします" None None Examples.silence);
    try reflexivity.
  left. reflexivity.
Defined.

(** C10. When the request goes through and the response has no text but has
    grounding metadata, the service returns the empty string with that
    metadata, not the clarification text, and the message the handler
    appends to the log is a model message with empty text and that
    metadata. *)
Theorem empty_text_with_grounding (env : Env) (key : string)
    (response : genai.GenerateContentResponse)
    (metadata : types.GroundingMetadata) :
  API_KEY env = Some key -> JS.truthy key = true ->
  genai.text response = None \/ genai.text response = Some "" ->
  geminiService.responseGrounding response = Some metadata ->
  (forall history newMessage images location,
      generateContent env {| genai.apiKey := key |}
        (geminiService.generateContentParameters
           (geminiService.buildContents history newMessage
              (match images with Some l => l | None => [] end))
           location)
      = Eff.Normal response ->
      Eff.completion
        (geminiService.chatWithDoctor env history newMessage images location)
      = Eff.Normal {| geminiService.text := "";
                      geminiService.groundingMetadata := Some metadata |})
  /\ (forall now now' st,
         App.returnsEarly st = false ->
         generateContent env {| genai.apiKey := key |}
           (geminiService.generateContentParameters
              (geminiService.buildContents (App.messages st) (App.inputText st)
                                           (App.attachedImages st))
              (App.location st))
         = Eff.Normal response ->
         App.messages (snd (App.handleSendMessage env now now' st))
         = (App.messages st
            ++ [App.userMsg now st;
                {| types.id := JS.toString (now' + 1);
                   types.role := types.model;
                   types.text := "";
                   types.images := None;
                   types.groundingMetadata := Some metadata;
                   types.isThinking := None |}])%list).
Proof.
  intros Hk Ht Htext Hground.
  assert (Hanswer : geminiService.answer response
                    = {| geminiService.text := "";
                         geminiService.groundingMetadata := Some metadata |}).
  { unfold geminiService.answer, geminiService.responseText.
    rewrite Hground. destruct Htext as [-> | ->]; reflexivity. }
  assert (Hservice : forall history newMessage images location,
             generateContent env {| genai.apiKey := key |}
               (geminiService.generateContentParameters
                  (geminiService.buildContents history newMessage
                     (match images with Some l => l | None => [] end))
                  location)
             = Eff.Normal response ->
             Eff.completion
               (geminiService.chatWithDoctor env history newMessage images
                                             location)
             = Eff.Normal {| geminiService.text := "";
                             geminiService.groundingMetadata := Some metadata |}).
  { intros history newMessage images location Hok.
    rewrite (chatWithDoctor_with_key env key _ _ _ _ Hk Ht). cbv zeta.
    rewrite Hok. unfold Eff.completion, snd. now rewrite Hanswer. }
  split; [exact Hservice|].
  intros now now' st Hacc Hok.
  rewrite handleSendMessage_accepted by exact Hacc. cbn [snd].
  unfold App.modelCall. rewrite Hservice.
  - unfold App.settle, App.awaiting, App.botMsg. simpl.
    now rewrite <- app_assoc.
  - rewrite userMsg_images. exact Hok.
Qed.

Lemma empty_text_with_grounding_witness :
  Eff.completion
    (geminiService.chatWithDoctor (Examples.answering Examples.placesOnly)
       [App.welcome] "近くの病院は？" None (Some Examples.tokyo))
  = Eff.Normal {| geminiService.text := "";
                  geminiService.groundingMetadata := Some Examples.nearby |}.
Proof.
  refine (proj1 (empty_text_with_grounding
                   (Examples.answering Examples.placesOnly) "secret"
                   Examples.placesOnly Examples.nearby
                   eq_refl eq_refl (or_intror eq_refl) eq_refl)
                [App.welcome] "近くの病院は？" None (Some Examples.tokyo) eq_refl).
Defined.

(** ** Further properties of the handlers *)

Section SubmissionFacts.

Lemma turnCount_app l1 l2 :
  Spec.turnCount (l1 ++ l2) = (Spec.turnCount l1 + Spec.turnCount l2)%nat.
Proof.
  induction l1 as [|m r IH]; simpl; [reflexivity|].
  destruct (types.role m); simpl; now rewrite IH.
Qed.

Lemma alternates_app l1 : forall first l2,
  Spec.alternates first (l1 ++ l2)
  = Spec.alternates first l1
    && Spec.alternates
         (if Nat.even (length l1) then first
          else match first with
               | types.user => types.model
               | types.model => types.user
               end) l2.
Proof.
  induction l1 as [|m r IH]; intros first l2; [reflexivity|].
  cbn [app Spec.alternates length]. rewrite IH, andb_assoc. f_equal.
  rewrite Nat.even_succ, <- Nat.negb_even.
  destruct (Nat.even (length r)), first; reflexivity.
Qed.

(** A submission either returns at once or runs to the end of [finally]. *)
Lemma handleSendMessage_cases env now now' st :
  (App.returnsEarly st = true
   /\ App.handleSendMessage env now now' st = ([], st))
  \/ (App.returnsEarly st = false
      /\ exists reply,
           types.role reply = types.model
           /\ types.id reply = JS.toString (now' + 1)
           /\ snd (App.handleSendMessage env now now' st)
              = App.setStatus types.IDLE
                  (App.setMessages
                     (fun prev => (prev ++ [reply])%list)
                     (App.awaiting now st))
           /\ (length (fst (App.handleSendMessage env now now' st)) <= 1)%nat).
Proof.
  destruct (App.returnsEarly st) eqn:Hret.
  - left. split; [reflexivity|]. unfold App.handleSendMessage.
    now rewrite Hret.
  - right. split; [reflexivity|].
    rewrite handleSendMessage_accepted by exact Hret. cbn [fst snd].
    assert (Hsent : (length (Eff.requests (App.modelCall env now st)) <= 1)%nat)
      by (destruct (modelCall_requests env now st) as [H|H]; rewrite H;
          simpl; lia).
    destruct (Eff.completion (App.modelCall env now st)) as [response|e].
    + exists (App.botMsg now' response). auto.
    + exists (App.errorMsg now'). auto.
Qed.

End SubmissionFacts.

(** X1. An accepted submission appends exactly two messages to the log, the
    user message with the text as typed and then one model message, whether
    the call succeeded or failed; the turn count grows by one, the text and
    the attached images are cleared, the session is idle again, the
    location is untouched and at most one request was sent. *)
Theorem accepted_submission_shape (env : Env) (now now' : Z) (st : App.State) :
  App.returnsEarly st = false ->
  let result := App.handleSendMessage env now now' st in
  exists reply,
    App.messages (snd result)
    = (App.messages st ++ [App.userMsg now st; reply])%list
    /\ types.text (App.userMsg now st) = App.inputText st
    /\ types.role reply = types.model
    /\ Spec.turnCount (App.messages (snd result))
       = S (Spec.turnCount (App.messages st))
    /\ App.inputText (snd result) = ""
    /\ App.attachedImages (snd result) = []
    /\ App.status (snd result) = types.IDLE
    /\ App.location (snd result) = App.location st
    /\ (length (fst result) <= 1)%nat.
Proof.
  intros Hacc result.
  destruct (handleSendMessage_cases env now now' st)
    as [[Hret _]|[_ (reply & Hrole & _ & Hst & Hsent)]]; [congruence|].
  exists reply. unfold result. rewrite Hst. cbn.
  rewrite <- app_assoc. repeat split; auto.
  rewrite turnCount_app. cbn. rewrite Hrole. lia.
Qed.

Lemma accepted_submission_shape_witness :
  App.returnsEarly (Examples.session 1 "  熱があります " []) = false
  /\ exists reply,
       App.messages
         (snd (App.handleSendMessage Examples.offline 5 6
                 (Examples.session 1 "  熱があります " [])))
       = (App.messages (Examples.session 1 "  熱があります " [])
          ++ [App.userMsg 5 (Examples.session 1 "  熱があります " []); reply])%list.
Proof.
  assert (Hacc : App.returnsEarly (Examples.session 1 "  熱があります " [])
                 = false) by reflexivity.
  split; [exact Hacc|].
  destruct (accepted_submission_shape Examples.offline 5 6
              (Examples.session 1 "  熱があります " []) Hacc)
    as (reply & Hlog & _).
  exists reply. exact Hlog.
Defined.

(** X2. While the model call of a submission is awaited, a second
    submission does nothing, whatever was typed or attached meanwhile and
    whatever the turn count: no request, no change of state. *)
Theorem no_second_submission_in_flight (env : Env) (now n n' : Z)
    (st : App.State) (text : string) (images : list string) :
  let pending :=
    App.setAttachedImages images (App.setInputText text (App.awaiting now st)) in
  App.handleSendMessage env n n' pending = ([], pending).
Proof.
  intros pending. unfold App.handleSendMessage, App.returnsEarly.
  change (App.status pending) with types.THINKING. cbn [types.AppStatus_eqb].
  now rewrite orb_true_r.
Qed.

(** *** Whole sessions *)

Section SessionFacts.

Lemma isLimitReached_false (log : list types.Message) :
  App.isLimitReached log = false -> (Spec.turnCount log < 10)%nat.
Proof.
  intros H. destruct (Nat.lt_ge_cases (Spec.turnCount log) 10) as [|Hge];
    [assumption|].
  apply isLimitReached_turnCount in Hge. congruence.
Qed.

(** Events other than a submission leave the log and the status alone. *)
Lemma step_other ev st :
  (forall env now now', ev <> App.submit env now now') ->
  fst (App.step ev st) = []
  /\ App.messages (snd (App.step ev st)) = App.messages st
  /\ App.status (snd (App.step ev st)) = App.status st.
Proof.
  intros Hev. destruct ev as [v|r|i|c|env now now']; simpl; auto.
  exfalso. now apply (Hev env now now').
Qed.

Lemma step_cases ev st :
  (fst (App.step ev st) = []
   /\ App.messages (snd (App.step ev st)) = App.messages st
   /\ App.status (snd (App.step ev st)) = App.status st)
  \/ (App.returnsEarly st = false
      /\ (length (fst (App.step ev st)) <= 1)%nat
      /\ App.status (snd (App.step ev st)) = types.IDLE
      /\ exists question reply,
           types.role question = types.user
           /\ types.role reply = types.model
           /\ App.messages (snd (App.step ev st))
              = (App.messages st ++ [question; reply])%list).
Proof.
  destruct ev as [v|r|i|c|env now now'];
    try (left; apply step_other; discriminate).
  cbn [App.step].
  destruct (handleSendMessage_cases env now now' st)
    as [[_ Hsame]|[Hacc (reply & Hrole & _ & Hst & Hsent)]].
  - left. rewrite Hsame. auto.
  - right. split; [exact Hacc|]. split; [exact Hsent|].
    rewrite Hst. split; [reflexivity|].
    exists (App.userMsg now st), reply. cbn.
    rewrite <- app_assoc. auto.
Qed.

Lemma step_atRest ev st :
  Spec.atRest st ->
  Spec.atRest (snd (App.step ev st))
  /\ (length (fst (App.step ev st)) + Spec.turnCount (App.messages st)
      <= Spec.turnCount (App.messages (snd (App.step ev st))))%nat.
Proof.
  intros (Hhd & Halt & Hlen & Hcap & Hidle).
  destruct (step_cases ev st)
    as [(Hsent & Hlog & Hst)
       |(Hacc & Hsent & Hst & question & reply & Hq & Hr & Hlog)].
  - unfold Spec.atRest. rewrite Hsent, Hlog, Hst. simpl. repeat split; auto.
  - assert (Hlimit : App.isLimitReached (App.messages st) = false).
    { unfold App.returnsEarly in Hacc.
      apply orb_false_elim in Hacc. tauto. }
    apply isLimitReached_false in Hlimit.
    assert (Hcount : Spec.turnCount (App.messages (snd (App.step ev st)))
                     = S (Spec.turnCount (App.messages st))).
    { rewrite Hlog, turnCount_app. cbn. rewrite Hq, Hr. lia. }
    unfold Spec.atRest. rewrite Hcount. rewrite Hlog at 1 2 3.
    repeat split; try lia; try assumption.
    + destruct (App.messages st); [discriminate|exact Hhd].
    + rewrite alternates_app, Halt, Hlen.
      replace (Nat.even (1 + 2 * Spec.turnCount (App.messages st))) with false.
      * cbn. now rewrite Hq, Hr.
      * symmetry. rewrite Nat.even_add_mul_2. reflexivity.
    + rewrite length_app, Hlen. simpl. lia.
Qed.

Lemma run_cons ev rest st :
  App.run (ev :: rest) st
  = ((fst (App.step ev st) ++ fst (App.run rest (snd (App.step ev st))))%list,
     snd (App.run rest (snd (App.step ev st)))).
Proof.
  cbn [App.run]. destruct (App.step ev st) as [sent st1]. cbn [fst snd].
  destruct (App.run rest st1); reflexivity.
Qed.

Lemma run_atRest evs : forall st,
  Spec.atRest st ->
  Spec.atRest (snd (App.run evs st))
  /\ (length (fst (App.run evs st)) + Spec.turnCount (App.messages st)
      <= Spec.turnCount (App.messages (snd (App.run evs st))))%nat.
Proof.
  induction evs as [|ev rest IH]; intros st Hst.
  - simpl. split; [exact Hst|lia].
  - rewrite run_cons. cbn [fst snd].
    destruct (step_atRest ev st Hst) as [Hst1 Hsent1].
    destruct (IH _ Hst1) as [Hst2 Hsent2].
    split; [exact Hst2|]. rewrite length_app. lia.
Qed.

Lemma initial_atRest : Spec.atRest App.initial.
Proof. unfold Spec.atRest. simpl. repeat split; auto. lia. Qed.

End SessionFacts.

(** X3. Whatever the user does from the start of a session, between two
    handlers the log begins with the greeting, alternates model and user
    roles (so it ends on a model message), holds one message more than twice
    the turn count, never holds more than ten user messages, and the session
    is idle. *)
Theorem session_invariant (evs : list App.Event) :
  let final := snd (App.run evs App.initial) in
  hd_error (App.messages final) = Some App.welcome
  /\ Spec.alternates types.model (App.messages final) = true
  /\ length (App.messages final)
     = (1 + 2 * Spec.turnCount (App.messages final))%nat
  /\ App.userMessageCount (App.messages final) <= App.MAX_TURNS
  /\ App.status final = types.IDLE.
Proof.
  intros final.
  destruct (run_atRest evs App.initial initial_atRest)
    as [(Hhd & Halt & Hlen & Hcap & Hidle) _].
  fold final in Hhd, Halt, Hlen, Hcap, Hidle.
  repeat split; try assumption.
  rewrite userMessageCount_turnCount. unfold App.MAX_TURNS. lia.
Qed.

(** X4. A session never sends more requests to the model than it has user
    turns, hence never more than ten, however many submissions are tried
    and whatever the model answers. *)
Theorem session_request_budget (evs : list App.Event) :
  let sent := fst (App.run evs App.initial) in
  let final := snd (App.run evs App.initial) in
  (length sent <= Spec.turnCount (App.messages final))%nat
  /\ (length sent <= 10)%nat.
Proof.
  intros sent final.
  destruct (run_atRest evs App.initial initial_atRest)
    as [(_ & _ & _ & Hcap & _) Hsent].
  fold sent final in Hcap, Hsent. simpl in Hsent. lia.
Qed.

(** X5. The limit is final: once the log holds ten user messages, no
    sequence of events sends a request or changes the log. *)
Theorem limit_is_terminal (evs : list App.Event) (st : App.State) :
  App.isLimitReached (App.messages st) = true ->
  fst (App.run evs st) = []
  /\ App.messages (snd (App.run evs st)) = App.messages st.
Proof.
  revert st. induction evs as [|ev rest IH]; intros st Hlimit.
  - simpl. auto.
  - rewrite run_cons. cbn [fst snd].
    assert (Hstep : fst (App.step ev st) = []
                    /\ App.messages (snd (App.step ev st)) = App.messages st).
    { destruct (step_cases ev st) as [(Hs & Hl & _)|(Hacc & _)]; [auto|].
      unfold App.returnsEarly in Hacc. rewrite Hlimit, orb_true_r in Hacc.
      discriminate. }
    destruct Hstep as [Hsent Hlog].
    destruct (IH (snd (App.step ev st))) as [Hsent' Hlog'];
      [now rewrite Hlog|].
    rewrite Hsent, Hsent', Hlog', Hlog. auto.
Qed.

Lemma limit_is_terminal_witness :
  App.isLimitReached (App.messages (Examples.session 10 "" [])) = true
  /\ fst (App.run [App.change "もう一つ質問";
                   App.loadend "data:image/png;base64,AAAA";
                   App.submit (Examples.answering Examples.silence) 5 6]
                  (Examples.session 10 "" [])) = [].
Proof.
  assert (H : App.isLimitReached (App.messages (Examples.session 10 "" []))
              = true) by reflexivity.
  split; [exact H|].
  exact (proj1 (limit_is_terminal
                  [App.change "もう一つ質問";
                   App.loadend "data:image/png;base64,AAAA";
                   App.submit (Examples.answering Examples.silence) 5 6]
                  (Examples.session 10 "" []) H)).
Defined.

(** *** Attaching and removing images *)

Section AttachmentFacts.

Lemma sliceTo_head {A} (n : Z) (l : list A) :
  0 <= n -> JS.sliceTo 0 n l = firstn (Z.to_nat n) l.
Proof.
  intros Hn. unfold JS.sliceTo.
  destruct (Z.ltb_spec 0 0) as [H|_]; [lia|].
  destruct (Z.ltb_spec n 0) as [H|_]; [lia|].
  rewrite (Z.min_l 0) by lia. cbn [Z.to_nat skipn]. rewrite Z.sub_0_r.
  destruct (Z.le_ge_cases n (Z.of_nat (length l))) as [H|H].
  - now rewrite Z.min_l by lia.
  - rewrite Z.min_r by lia. rewrite Nat2Z.id.
    now rewrite !firstn_all2 by lia.
Qed.

Lemma handleImageUpload_free_slots files st :
  (length (App.attachedImages st) <= 2)%nat ->
  App.handleImageUpload (Some files) st
  = firstn (2 - length (App.attachedImages st)) files.
Proof.
  intros Hcap. unfold App.handleImageUpload. cbv zeta.
  rewrite sliceTo_head by lia. f_equal. lia.
Qed.

Lemma loadend_all (arrival : list string) : forall st,
  let st' := fold_left (fun s r => App.onloadend r s) arrival st in
  App.attachedImages st' = (App.attachedImages st ++ arrival)%list
  /\ App.messages st' = App.messages st
  /\ App.inputText st' = App.inputText st
  /\ App.status st' = App.status st.
Proof.
  induction arrival as [|r rest IH]; intros st; cbn [fold_left].
  - now rewrite app_nil_r.
  - destruct (IH (App.onloadend r st)) as (Ha & Hm & Hi & Hs).
    cbv zeta. rewrite Ha, Hm, Hi, Hs. cbn. now rewrite <- app_assoc.
Qed.

Lemma filterFrom_outside {A} (index : Z) (l : list A) : forall i,
  index < i \/ i + Z.of_nat (length l) <= index ->
  JS.filterFrom (fun _ j => negb (j =? index)) i l = l.
Proof.
  induction l as [|x r IH]; intros i H; [reflexivity|].
  cbn [JS.filterFrom]. cbn [length] in H.
  destruct (Z.eqb_spec i index) as [->|_]; [lia|]. cbn [negb].
  f_equal. apply IH. lia.
Qed.

Lemma filterFrom_inside {A} (l : list A) : forall i k,
  (k < length l)%nat ->
  JS.filterFrom (fun _ j => negb (j =? i + Z.of_nat k)) i l
  = (firstn k l ++ skipn (S k) l)%list.
Proof.
  induction l as [|x r IH]; intros i k Hk; [simpl in Hk; lia|].
  cbn [JS.filterFrom]. destruct k as [|k].
  - rewrite Z.add_0_r, Z.eqb_refl. cbn [negb firstn skipn app].
    apply filterFrom_outside. lia.
  - destruct (Z.eqb_spec i (i + Z.of_nat (S k))) as [H|_]; [lia|].
    cbn [negb firstn skipn app]. f_equal.
    replace (i + Z.of_nat (S k)) with (i + 1 + Z.of_nat k) by lia.
    apply IH. simpl in Hk. lia.
Qed.

Lemma setAttachedImages_same st :
  App.setAttachedImages (App.attachedImages st) st = st.
Proof. now destruct st. Qed.

End AttachmentFacts.

(** X6. Picking files with at most two images attached starts the reading
    of the first files that fit the free slots, and of none when
    [e.target.files] is [null]; once they have all loaded, in whatever
    order, they follow the images already attached, the total is the
    smaller of 2 and what was asked for, and nothing else has changed. *)
Theorem upload_fills_free_slots (files : option (list string))
    (arrival : list string) (st : App.State) :
  (length (App.attachedImages st) <= 2)%nat ->
  Permutation arrival (App.handleImageUpload files st) ->
  let asked := match files with Some l => l | None => [] end in
  let st' := fold_left (fun s r => App.onloadend r s) arrival st in
  App.handleImageUpload files st
  = firstn (2 - length (App.attachedImages st)) asked
  /\ App.attachedImages st' = (App.attachedImages st ++ arrival)%list
  /\ length (App.attachedImages st')
     = Nat.min 2 (length (App.attachedImages st) + length asked)
  /\ App.messages st' = App.messages st
  /\ App.inputText st' = App.inputText st
  /\ App.status st' = App.status st.
Proof.
  intros Hcap Hperm asked st'.
  assert (Hstart : App.handleImageUpload files st
                   = firstn (2 - length (App.attachedImages st)) asked).
  { destruct files as [l|]; [now apply handleImageUpload_free_slots|].
    unfold asked. now rewrite firstn_nil. }
  destruct (loadend_all arrival st) as (Ha & Hm & Hi & Hs).
  fold st' in Ha, Hm, Hi, Hs.
  repeat split; try assumption.
  rewrite Ha, length_app, (Permutation_length Hperm), Hstart, length_firstn.
  lia.
Qed.

Lemma upload_fills_free_slots_witness :
  App.attachedImages
    (fold_left (fun s r => App.onloadend r s)
       ["data:image/png;base64,BBBB"]
       (Examples.session 0 "" ["data:image/png;base64,AAAA"]))
  = ["data:image/png;base64,AAAA"; "data:image/png;base64,BBBB"].
Proof.
  refine (proj1 (proj2
            (upload_fills_free_slots
               (Some ["data:image/png;base64,BBBB";
                      "data:image/png;base64,CCCC"])
               ["data:image/png;base64,BBBB"]
               (Examples.session 0 "" ["data:image/png;base64,AAAA"]) _ _))).
  - simpl. lia.
  - apply Permutation_refl.
Defined.

(** X7. The free slots are counted when the files are picked, not when they
    load: two pickings made before either has loaded both count them from
    the same attached images, and once everything has loaded the total is
    the images attached before plus what each picking alone was allowed,
    which can be more than two. *)
Theorem uploads_from_one_render (first second arrival : list string)
    (st : App.State) :
  (length (App.attachedImages st) <= 2)%nat ->
  Permutation arrival
    (App.handleImageUpload (Some first) st
     ++ App.handleImageUpload (Some second) st) ->
  let free := (2 - length (App.attachedImages st))%nat in
  length (App.attachedImages
            (fold_left (fun s r => App.onloadend r s) arrival st))
  = (length (App.attachedImages st)
     + Nat.min free (length first) + Nat.min free (length second))%nat.
Proof.
  intros Hcap Hperm free.
  destruct (loadend_all arrival st) as (Ha & _). rewrite Ha.
  rewrite length_app, (Permutation_length Hperm), length_app.
  rewrite !handleImageUpload_free_slots by exact Hcap.
  rewrite !length_firstn. fold free. lia.
Qed.

Lemma uploads_from_one_render_witness :
  length
    (App.attachedImages
       (fold_left (fun s r => App.onloadend r s)
          ["data:image/png;base64,AAAA"; "data:image/png;base64,CCCC";
           "data:image/png;base64,BBBB"; "data:image/png;base64,DDDD"]
          (Examples.session 0 "" []))) = 4%nat.
Proof.
  refine (uploads_from_one_render
            ["data:image/png;base64,AAAA"; "data:image/png;base64,BBBB"]
            ["data:image/png;base64,CCCC"; "data:image/png;base64,DDDD"]
            ["data:image/png;base64,AAAA"; "data:image/png;base64,CCCC";
             "data:image/png;base64,BBBB"; "data:image/png;base64,DDDD"]
            (Examples.session 0 "" []) _ _).
  - simpl. lia.
  - simpl. apply perm_skip, perm_swap.
Defined.

(** X8. Removing the image at a position of the list takes that one image
    out and keeps the others in order; a position outside the list changes
    nothing.  The log, the text and the status are never touched. *)
Theorem removeImage_spec (index : Z) (st : App.State) :
  let images := App.attachedImages st in
  (0 <= index < Z.of_nat (length images) ->
   App.attachedImages (App.removeImage index st)
   = (firstn (Z.to_nat index) images ++ skipn (S (Z.to_nat index)) images)%list
   /\ S (length (App.attachedImages (App.removeImage index st)))
      = length images)
  /\ (index < 0 \/ Z.of_nat (length images) <= index ->
      App.removeImage index st = st)
  /\ App.messages (App.removeImage index st) = App.messages st
  /\ App.inputText (App.removeImage index st) = App.inputText st
  /\ App.status (App.removeImage index st) = App.status st.
Proof.
  intros images. split; [|split; [|auto]].
  - intros Hin.
    assert (Hrm : App.attachedImages (App.removeImage index st)
                  = (firstn (Z.to_nat index) images
                     ++ skipn (S (Z.to_nat index)) images)%list).
    { assert (Hk : (Z.to_nat index < length images)%nat) by lia.
      pose proof (filterFrom_inside images 0 (Z.to_nat index) Hk) as H.
      rewrite Z.add_0_l, Z2Nat.id in H by lia. exact H. }
    split; [exact Hrm|].
    rewrite Hrm, length_app, length_firstn, length_skipn. lia.
  - intros Hout. unfold App.removeImage, JS.filteri.
    rewrite filterFrom_outside by (fold images; lia).
    apply setAttachedImages_same.
Qed.

Lemma removeImage_spec_witness :
  App.attachedImages
    (App.removeImage 0
       (Examples.session 0 ""
          ["data:image/png;base64,AAAA"; "data:image/png;base64,BBBB"]))
  = ["data:image/png;base64,BBBB"].
Proof.
  refine (proj1 (proj1 (removeImage_spec 0
                          (Examples.session 0 ""
                             ["data:image/png;base64,AAAA";
                              "data:image/png;base64,BBBB"])) _)).
  simpl. lia.
Defined.

(** X9. Removing the image that has just loaded, at the last position,
    gives back the state before it loaded. *)
Theorem remove_undoes_loadend (result : string) (st : App.State) :
  App.removeImage (Z.of_nat (length (App.attachedImages st)))
                  (App.onloadend result st)
  = st.
Proof.
  unfold App.removeImage, App.onloadend, JS.filteri.
  cbn [App.attachedImages App.setAttachedImages].
  rewrite <- (Z.add_0_l (Z.of_nat (length (App.attachedImages st)))).
  rewrite filterFrom_inside by (rewrite length_app; simpl; lia).
  rewrite firstn_app, firstn_all, Nat.sub_diag. cbn [firstn].
  rewrite skipn_all2 by (rewrite length_app; simpl; lia).
  rewrite !app_nil_r. now destruct st.
Qed.

(** *** The service seen from its caller *)

(** X10. A call to the service ends in one of three ways and no other:
    without a credential it throws "API Key not found" and sends nothing;
    with one it sends exactly one request, and either the transport fails
    and it throws the fixed communication-error text, whatever the
    transport's own message, or it returns the answer read off the
    response. *)
Theorem chatWithDoctor_outcomes (env : Env) (history : list types.Message)
    (newMessage : string) (images : option (list string))
    (location : option types.UserLocation) :
  let call :=
    geminiService.chatWithDoctor env history newMessage images location in
  let params :=
    geminiService.generateContentParameters
      (geminiService.buildContents history newMessage
         (match images with Some l => l | None => [] end))
      location in
  (Spec.unset (API_KEY env) /\ call = ([], Eff.Throw "API Key not found"))
  \/ (exists key e,
         API_KEY env = Some key /\ JS.truthy key = true
         /\ generateContent env {| genai.apiKey := key |} params = Eff.Throw e
         /\ call = ([params],
                    Eff.Throw "通信エラーが発生しました。もう一度お試しください。"))
  \/ (exists key response,
         API_KEY env = Some key /\ JS.truthy key = true
         /\ generateContent env {| genai.apiKey := key |} params
            = Eff.Normal response
         /\ call = ([params], Eff.Normal (geminiService.answer response))).
Proof.
  intros call params.
  destruct (getClient_cases env) as [(key & Hk & Ht & _)|[Hno _]].
  - right.
    pose proof (chatWithDoctor_with_key env key history newMessage images
                  location Hk Ht) as Hcall.
    cbv zeta in Hcall. fold params call in Hcall.
    destruct (generateContent env {| genai.apiKey := key |} params)
      as [response|e] eqn:Hgen.
    + right. exists key, response. auto.
    + left. exists key, e. auto.
  - left. split; [exact Hno|]. now apply chatWithDoctor_without_key.
Qed.

Section ReplyFacts.

Lemma accepted_request_params env now now' st req :
  App.returnsEarly st = false ->
  In req (fst (App.handleSendMessage env now now' st)) ->
  req = geminiService.generateContentParameters
          (geminiService.buildContents (App.messages st) (App.inputText st)
                                       (App.attachedImages st))
          (App.location st).
Proof.
  intros Hacc Hin. rewrite handleSendMessage_accepted in Hin by exact Hacc.
  simpl in Hin.
  destruct (modelCall_requests env now st) as [H|H]; rewrite H in Hin.
  - destruct Hin.
  - destruct Hin as [<-|[]]. reflexivity.
Qed.

(** The outcome of the model call of an accepted submission, with a key. *)
Lemma modelCall_with_key env key now st :
  API_KEY env = Some key -> JS.truthy key = true ->
  Eff.completion (App.modelCall env now st)
  = match generateContent env {| genai.apiKey := key |}
            (geminiService.generateContentParameters
               (geminiService.buildContents (App.messages st)
                  (App.inputText st) (App.attachedImages st))
               (App.location st)) with
    | Eff.Normal response => Eff.Normal (geminiService.answer response)
    | Eff.Throw _ =>
        Eff.Throw "通信エラーが発生しました。もう一度お試しください。"
    end.
Proof.
  intros Hk Ht. unfold App.modelCall.
  rewrite (chatWithDoctor_with_key env key _ _ _ _ Hk Ht). cbv zeta.
  rewrite userMsg_images. reflexivity.
Qed.

Lemma answer_not_blank response :
  JS.truthy (geminiService.text (geminiService.answer response)) = true
  \/ geminiService.groundingMetadata (geminiService.answer response) <> None.
Proof.
  unfold geminiService.answer.
  destruct (JS.truthy (geminiService.responseText response)) eqn:Ht;
    destruct (geminiService.responseGrounding response) eqn:Hg; simpl;
    rewrite ?Ht, ?Hg; auto; right; discriminate.
Qed.

Lemma modelCall_normal env now st result :
  Eff.completion (App.modelCall env now st) = Eff.Normal result ->
  exists response, result = geminiService.answer response.
Proof.
  destruct (getClient_cases env) as [(key & Hk & Ht & _)|[Hno _]].
  - rewrite (modelCall_with_key env key now st Hk Ht).
    destruct (generateContent env _ _) as [response|e]; [|discriminate].
    intros [= <-]. now exists response.
  - rewrite missing_credential_throws by exact Hno. discriminate.
Qed.

End ReplyFacts.

(** X11. When the request of an accepted submission goes through and the
    response has a non-empty text, the model message appended to the log
    carries that text unchanged, together with the grounding metadata of
    the first candidate of the response, and no images. *)
Theorem reply_carries_response (env : Env) (key : string) (now now' : Z)
    (st : App.State) (response : genai.GenerateContentResponse)
    (answer : string) :
  App.returnsEarly st = false ->
  API_KEY env = Some key -> JS.truthy key = true ->
  generateContent env {| genai.apiKey := key |}
    (geminiService.generateContentParameters
       (geminiService.buildContents (App.messages st) (App.inputText st)
                                    (App.attachedImages st))
       (App.location st))
  = Eff.Normal response ->
  genai.text response = Some answer -> JS.truthy answer = true ->
  App.messages (snd (App.handleSendMessage env now now' st))
  = (App.messages st
     ++ [App.userMsg now st;
         {| types.id := JS.toString (now' + 1);
            types.role := types.model;
            types.text := answer;
            types.images := None;
            types.groundingMetadata :=
              match genai.candidates response with
              | Some (first :: _) => genai.groundingMetadata first
              | _ => None
              end;
            types.isThinking := None |}])%list.
Proof.
  intros Hacc Hk Ht Hok Htext Hanswer.
  rewrite handleSendMessage_accepted by exact Hacc. cbn [snd].
  rewrite (modelCall_with_key env key now st Hk Ht), Hok.
  assert (Hans : geminiService.answer response
                 = {| geminiService.text := answer;
                      geminiService.groundingMetadata :=
                        geminiService.responseGrounding response |}).
  { unfold geminiService.answer, geminiService.responseText.
    rewrite Htext. cbn iota. rewrite Hanswer. cbn iota. rewrite Hanswer.
    reflexivity. }
  unfold App.settle, App.botMsg. rewrite Hans. cbn.
  rewrite <- app_assoc. reflexivity.
Qed.

Lemma reply_carries_response_witness :
  exists reply,
    App.messages
      (snd (App.handleSendMessage
              (Examples.answering
                 {| genai.text := Some "お大事に";
                    genai.candidates :=
                      Some [{| genai.groundingMetadata := Some Examples.nearby |};
                            {| genai.groundingMetadata := None |}] |})
              5 6 (Examples.session 0 "頭痛がします" [])))
    = [App.welcome;
       App.userMsg 5 (Examples.session 0 "頭痛がします" []); reply]
    /\ types.text reply = "お大事に"
    /\ types.groundingMetadata reply = Some Examples.nearby.
Proof.
  eexists. split.
  - refine (reply_carries_response
              (Examples.answering
                 {| genai.text := Some "お大事に";
                    genai.candidates :=
                      Some [{| genai.groundingMetadata := Some Examples.nearby |};
                            {| genai.groundingMetadata := None |}] |})
              "secret" 5 6 (Examples.session 0 "頭痛がします" []) _ "お大事に"
              eq_refl eq_refl eq_refl eq_refl eq_refl eq_refl).
  - split; reflexivity.
Defined.

(** X12. The model message an accepted submission appends is never an
    empty text without grounding metadata: a failure gives the fallback
    text, an empty response the clarification text, and an empty text is
    kept only together with metadata. *)
Theorem reply_never_blank (env : Env) (now now' : Z) (st : App.State) :
  App.returnsEarly st = false ->
  exists reply,
    App.messages (snd (App.handleSendMessage env now now' st))
    = (App.messages st ++ [App.userMsg now st; reply])%list
    /\ (JS.truthy (types.text reply) = true
        \/ types.groundingMetadata reply <> None).
Proof.
  intros Hacc. rewrite handleSendMessage_accepted by exact Hacc. cbn [snd].
  destruct (Eff.completion (App.modelCall env now st)) as [result|e] eqn:Hc.
  - destruct (modelCall_normal env now st result Hc) as [response ->].
    exists (App.botMsg now' (geminiService.answer response)). split.
    + cbn. now rewrite <- app_assoc.
    + apply answer_not_blank.
  - exists (App.errorMsg now'). split.
    + cbn. now rewrite <- app_assoc.
    + left. reflexivity.
Qed.

Lemma reply_never_blank_witness :
  exists reply,
    App.messages
      (snd (App.handleSendMessage (Examples.answering Examples.silence) 5 6
              (Examples.session 0 "頭痛がします" [])))
    = (App.messages (Examples.session 0 "頭痛がします" [])
       ++ [App.userMsg 5 (Examples.session 0 "頭痛がします" []); reply])%list
    /\ (JS.truthy (types.text reply) = true
        \/ types.groundingMetadata reply <> None).
Proof.
  exact (reply_never_blank (Examples.answering Examples.silence) 5 6
           (Examples.session 0 "頭痛がします" []) eq_refl).
Defined.

(** X13. Every request an accepted submission sends names the same model,
    enables the maps tool and carries the fixed system instruction; it has
    a tool configuration exactly when the session has a location, and then
    the configuration holds the coordinates of that location. *)
Theorem request_configuration (env : Env) (now now' : Z) (st : App.State)
    (req : genai.GenerateContentParameters) :
  App.returnsEarly st = false ->
  In req (fst (App.handleSendMessage env now now' st)) ->
  genai.model req = "gemini-2.5-flash"
  /\ genai.tools (genai.config req) = [genai.googleMaps]
  /\ genai.systemInstruction (genai.config req)
     = geminiService.systemInstruction
  /\ genai.toolConfig (genai.config req)
     = match App.location st with
       | Some loc =>
           Some {| genai.retrievalConfig :=
                     Some {| genai.latLng :=
                               {| genai.latitude := types.latitude loc;
                                  genai.longitude := types.longitude loc |} |} |}
       | None => None
       end.
Proof.
  intros Hacc Hin.
  rewrite (accepted_request_params env now now' st req Hacc Hin).
  unfold geminiService.generateContentParameters. cbn.
  destruct (App.location st); auto.
Qed.

Lemma request_configuration_witness :
  genai.toolConfig
    (genai.config
       (Examples.request
          (App.setLocation (Some Examples.tokyo)
             (Examples.session 0 "近くの病院は？" []))))
  = Some {| genai.retrievalConfig :=
              Some {| genai.latLng :=
                        {| genai.latitude := 35.5%float;
                           genai.longitude := 139.75%float |} |} |}.
Proof.
  exact (proj2 (proj2 (proj2
           (request_configuration (Examples.answering Examples.silence) 5 6
              (App.setLocation (Some Examples.tokyo)
                 (Examples.session 0 "近くの病院は？" []))
              (Examples.request
                 (App.setLocation (Some Examples.tokyo)
                    (Examples.session 0 "近くの病院は？" [])))
              eq_refl (or_introl eq_refl))))).
Defined.

(** X14. In a bundle built by the configuration, the client is created with
    [API_KEY] when that variable is set and not empty, else with
    [GEMINI_API_KEY] when that one is; creating it throws
    "API Key not found" exactly when both are unset or empty. *)
Theorem bundled_key_resolution (loaded : viteConfig.Loaded)
    (generateContent :
       genai.GoogleGenAI -> genai.GenerateContentParameters ->
       Eff.Completion genai.GenerateContentResponse) :
  let env := viteConfig.bundle loaded generateContent in
  (forall key,
      viteConfig.API_KEY loaded = Some key -> JS.truthy key = true ->
      geminiService.getClient env = Eff.ret {| genai.apiKey := key |})
  /\ (forall key,
         Spec.unset (viteConfig.API_KEY loaded) ->
         viteConfig.GEMINI_API_KEY loaded = Some key -> JS.truthy key = true ->
         geminiService.getClient env = Eff.ret {| genai.apiKey := key |})
  /\ (geminiService.getClient env = Eff.throw "API Key not found"
      <-> Spec.unset (viteConfig.API_KEY loaded)
          /\ Spec.unset (viteConfig.GEMINI_API_KEY loaded)).
Proof.
  intros env.
  assert (Hget : geminiService.getClient env
                 = if JS.truthy (viteConfig.apiKey loaded)
                   then Eff.ret {| genai.apiKey := viteConfig.apiKey loaded |}
                   else Eff.throw "API Key not found") by reflexivity.
  rewrite Hget. unfold viteConfig.apiKey, viteConfig.orElse, Spec.unset.
  split; [|split].
  - intros key -> Ht. now rewrite Ht, Ht.
  - intros key [-> | ->] -> Ht; cbn; now rewrite Ht, Ht.
  - destruct (viteConfig.API_KEY loaded) as [[|a r]|];
      destruct (viteConfig.GEMINI_API_KEY loaded) as [[|b r']|]; cbn;
      split; try discriminate; auto;
      intros [[H|H] [H'|H']]; discriminate.
Qed.

Lemma bundled_key_resolution_witness :
  geminiService.getClient
    (viteConfig.bundle
       {| viteConfig.API_KEY := Some "";
          viteConfig.GEMINI_API_KEY := Some "local-key" |}
       (fun _ _ => Eff.Throw "Failed to fetch"))
  = Eff.ret {| genai.apiKey := "local-key" |}.
Proof.
  refine (proj1 (proj2 (bundled_key_resolution
                          {| viteConfig.API_KEY := Some "";
                             viteConfig.GEMINI_API_KEY := Some "local-key" |}
                          (fun _ _ => Eff.Throw "Failed to fetch")))
                "local-key" (or_intror eq_refl) eq_refl eq_refl).
Defined.

(** *** The size of the payload *)

Section PayloadFacts.

Lemma mostRecent_app {A} (n : nat) (older recent : list A) :
  (n <= length recent)%nat ->
  Spec.mostRecent n (older ++ recent) = Spec.mostRecent n recent.
Proof.
  intros Hn. unfold Spec.mostRecent.
  rewrite length_app, skipn_app.
  rewrite skipn_all2 by lia. cbn [app]. f_equal. lia.
Qed.

Lemma mostRecent_twice {A} (n m : nat) (log : list A) :
  (n <= m)%nat ->
  Spec.mostRecent n (Spec.mostRecent m log) = Spec.mostRecent n log.
Proof.
  intros Hnm. unfold Spec.mostRecent.
  rewrite skipn_skipn, length_skipn. f_equal. lia.
Qed.

Lemma inlineData_of_images (images : list string) :
  filter Spec.isInlineData (map geminiService.inlineDataOf images)
  = map geminiService.inlineDataOf images.
Proof.
  induction images as [|img r IH]; simpl; [reflexivity|]. now rewrite IH.
Qed.

Lemma mapFrom_app {A B} (f : A -> Z -> B) (l1 : list A) : forall i l2,
  JS.mapFrom f i (l1 ++ l2)
  = (JS.mapFrom f i l1 ++ JS.mapFrom f (i + Z.of_nat (length l1)) l2)%list.
Proof.
  induction l1 as [|x r IH]; intros i l2.
  - simpl. now rewrite Z.add_0_r.
  - cbn [app JS.mapFrom length]. rewrite IH. do 3 f_equal. lia.
Qed.

(** One block never carries more inline parts than its message has images. *)
Lemma historyContent_inline_bound n msg index :
  (length (Spec.inlineData (geminiService.historyContent n msg index))
   <= Spec.imageCount msg)%nat.
Proof.
  unfold Spec.inlineData, Spec.imageCount.
  destruct (Z.lt_ge_cases index (n - 2)) as [H|H].
  - rewrite historyContent_early by exact H. simpl. lia.
  - rewrite historyContent_recent by exact H.
    cbn [filter Spec.isInlineData].
    rewrite inlineData_of_images, length_map. apply filter_length_le.
Qed.

Lemma early_blocks_no_inline n (l : list types.Message) : forall i,
  i + Z.of_nat (length l) <= n - 2 ->
  Spec.inlineParts (JS.mapFrom (geminiService.historyContent n) i l) = [].
Proof.
  induction l as [|msg r IH]; intros i Hi; [reflexivity|].
  cbn [JS.mapFrom Spec.inlineParts flat_map]. cbn [length] in Hi.
  unfold Spec.inlineData at 1.
  rewrite historyContent_early by lia. cbn [filter Spec.isInlineData app].
  apply IH. lia.
Qed.

Lemma blocks_inline_bound n (l : list types.Message) : forall i,
  (length (Spec.inlineParts (JS.mapFrom (geminiService.historyContent n) i l))
   <= list_sum (map Spec.imageCount l))%nat.
Proof.
  induction l as [|msg r IH]; intros i; [simpl; lia|].
  cbn [JS.mapFrom Spec.inlineParts flat_map map].
  change (list_sum (Spec.imageCount msg :: map Spec.imageCount r))
    with (Spec.imageCount msg + list_sum (map Spec.imageCount r))%nat.
  rewrite length_app.
  pose proof (historyContent_inline_bound n msg i).
  pose proof (IH (i + 1)). unfold Spec.inlineParts in *. lia.
Qed.

Lemma late_blocks_inline n (l : list types.Message) : forall i,
  n - 2 <= i ->
  Spec.inlineParts (JS.mapFrom (geminiService.historyContent n) i l)
  = flat_map
      (fun msg =>
         map geminiService.inlineDataOf
           (Spec.dataURIs
              (match types.images msg with Some l => l | None => [] end)))
      l.
Proof.
  induction l as [|msg r IH]; intros i Hi; [reflexivity|].
  cbn [JS.mapFrom Spec.inlineParts flat_map].
  unfold Spec.inlineData at 1.
  rewrite historyContent_recent by exact Hi.
  cbn [filter Spec.isInlineData]. rewrite inlineData_of_images.
  f_equal. apply IH. lia.
Qed.

End PayloadFacts.

(** X15. The payload built for a request has one block for each of the
    last min(length, 10) messages of the history and one for the new turn:
    never fewer than one block, never more than eleven, and the last block
    is a user block. *)
Theorem payload_block_count (history : list types.Message)
    (newMessage : string) (images : list string) :
  let contents := geminiService.buildContents history newMessage images in
  length contents = S (Nat.min (length history) 10)
  /\ (1 <= length contents <= 11)%nat
  /\ option_map genai.role (nth_error contents (length contents - 1))
     = Some types.user.
Proof.
  intros contents.
  assert (Hlen : length contents = S (Nat.min (length history) 10)).
  { unfold contents. rewrite buildContents_eq. cbv zeta.
    rewrite length_app. unfold JS.mapi.
    rewrite mapFrom_length, mostRecent_length. simpl. lia. }
  split; [exact Hlen|]. split; [lia|].
  unfold contents in *. rewrite buildContents_eq in *. cbv zeta in *.
  rewrite length_app in *. cbn [length] in *.
  rewrite nth_error_app2 by lia.
  replace (_ - _)%nat with O by lia. reflexivity.
Qed.

(** X16. Messages older than the last ten have no influence on the
    payload: in front of a history of at least ten messages any older
    messages can be put or taken away without changing a single block. *)
Theorem older_messages_ignored (older recent : list types.Message)
    (newMessage : string) (images : list string) :
  (10 <= length recent)%nat ->
  geminiService.buildContents (older ++ recent) newMessage images
  = geminiService.buildContents recent newMessage images.
Proof.
  intros Hlen. rewrite !buildContents_eq. cbv zeta.
  now rewrite mostRecent_app by exact Hlen.
Qed.

Lemma older_messages_ignored_witness :
  geminiService.buildContents
    (Examples.pictures ++ Examples.exchanges 5) "熱もあります" []
  = geminiService.buildContents (Examples.exchanges 5) "熱もあります" [].
Proof.
  apply (older_messages_ignored Examples.pictures (Examples.exchanges 5)).
  simpl. lia.
Defined.

(** X17. The inline image parts of a whole payload are exactly those of
    the data-URI images of the last two messages of the history, followed
    by one for each of the new turn's images; so they are at most the
    images of those two messages plus the new ones, however long the
    history and however many images it holds. *)
Theorem inline_parts_of_payload (history : list types.Message)
    (newMessage : string) (images : list string) :
  Spec.inlineParts (geminiService.buildContents history newMessage images)
  = (flat_map
       (fun msg =>
          map geminiService.inlineDataOf
            (Spec.dataURIs
               (match types.images msg with Some l => l | None => [] end)))
       (Spec.mostRecent 2 history)
     ++ map geminiService.inlineDataOf images)%list
  /\ (length (Spec.inlineParts
                (geminiService.buildContents history newMessage images))
      <= list_sum (map Spec.imageCount (Spec.mostRecent 2 history))
         + length images)%nat.
Proof.
  rewrite buildContents_eq. cbv zeta.
  set (window := Spec.mostRecent 10 history).
  set (n := Z.of_nat (length window)).
  set (early := firstn (length window - 2) window).
  set (late := skipn (length window - 2) window).
  assert (Hnew : Spec.inlineParts
                   [{| genai.role := types.user;
                       genai.parts :=
                         genai.textPart newMessage
                         :: map geminiService.inlineDataOf images |}]
                 = map geminiService.inlineDataOf images).
  { unfold Spec.inlineParts. cbn [flat_map]. rewrite app_nil_r.
    unfold Spec.inlineData. cbn [genai.parts filter Spec.isInlineData].
    apply inlineData_of_images. }
  assert (Hsplit : JS.mapi (geminiService.historyContent n) window
                   = (JS.mapFrom (geminiService.historyContent n) 0 early
                      ++ JS.mapFrom (geminiService.historyContent n)
                           (0 + Z.of_nat (length early)) late)%list).
  { unfold JS.mapi, early, late.
    now rewrite <- mapFrom_app, firstn_skipn. }
  assert (Hearly : Spec.inlineParts
                     (JS.mapFrom (geminiService.historyContent n) 0 early)
                   = []).
  { destruct (Nat.le_gt_cases 2 (length window)) as [H2|H2].
    - apply early_blocks_no_inline. unfold early, n.
      rewrite length_firstn. lia.
    - unfold early. replace (length window - 2)%nat with O by lia.
      reflexivity. }
  assert (Hlate : late = Spec.mostRecent 2 history).
  { unfold late. fold (Spec.mostRecent 2 window). unfold window.
    apply mostRecent_twice. lia. }
  assert (Hhistory : Spec.inlineParts
                       (JS.mapi (geminiService.historyContent n) window)
                     = Spec.inlineParts
                         (JS.mapFrom (geminiService.historyContent n)
                            (0 + Z.of_nat (length early)) late)).
  { rewrite Hsplit. unfold Spec.inlineParts in *.
    now rewrite flat_map_app, Hearly. }
  unfold Spec.inlineParts at 1 2. rewrite flat_map_app, length_app.
  fold (Spec.inlineParts (JS.mapi (geminiService.historyContent n) window)).
  fold (Spec.inlineParts
          [{| genai.role := types.user;
              genai.parts :=
                genai.textPart newMessage
                :: map geminiService.inlineDataOf images |}]).
  rewrite Hnew, Hhistory, length_map. split.
  - f_equal. rewrite <- Hlate. apply late_blocks_inline.
    unfold early, n. rewrite length_firstn. lia.
  - apply Nat.add_le_mono_r. rewrite <- Hlate. apply blocks_inline_bound.
Qed.

(** *** Image payloads *)

Section ImageFacts.

Lemma stripPrefix_app (p s : string) :
  JS.stripPrefix p (p ++ s) = Some s.
Proof.
  induction p as [|a p IH]; simpl; [reflexivity|].
  now rewrite Ascii.eqb_refl.
Qed.

Lemma stripPrefix_sound (p : string) : forall s r,
  JS.stripPrefix p s = Some r -> s = p ++ r.
Proof.
  induction p as [|a p IH]; intros s r H; simpl in H.
  - now injection H as ->.
  - destruct s as [|b s]; [discriminate|].
    destruct (Ascii.eqb_spec a b) as [->|_]; [|discriminate].
    simpl. f_equal. now apply IH.
Qed.

Lemma spanWord_app (w : string) : forall rest,
  Spec.allWord w = true ->
  match rest with
  | String c _ => JS.isWord c = false
  | EmptyString => True
  end ->
  JS.spanWord (w ++ rest) = (w, rest).
Proof.
  induction w as [|a w IH]; intros rest Hw Hrest.
  - destruct rest as [|c r]; simpl; [reflexivity|]. now rewrite Hrest.
  - simpl in Hw. apply andb_prop in Hw as [Ha Hw].
    simpl. rewrite Ha, (IH rest Hw Hrest). reflexivity.
Qed.

Lemma spanWord_sound (s : string) : forall w rest,
  JS.spanWord s = (w, rest) -> s = w ++ rest /\ Spec.allWord w = true.
Proof.
  induction s as [|a s IH]; intros w rest H; simpl in H.
  - injection H as <- <-. auto.
  - destruct (JS.isWord a) eqn:Ha.
    + destruct (JS.spanWord s) as [w' rest'] eqn:Hs.
      injection H as <- <-. destruct (IH w' rest' eq_refl) as [-> Hw].
      simpl. rewrite Ha. auto.
    + injection H as <- <-. auto.
Qed.

Lemma matchDataImage_sound img mime data :
  JS.matchDataImage img = Some (mime, data) ->
  exists subtype,
    img = "data:image/" ++ subtype ++ ";base64," ++ data
    /\ mime = "image/" ++ subtype
    /\ Spec.allWord subtype = true /\ subtype <> "".
Proof.
  unfold JS.matchDataImage. intros H.
  destruct (JS.stripPrefix "data:image/" img) as [r|] eqn:Hp; [|discriminate].
  destruct (JS.spanWord r) as [w r'] eqn:Hs.
  destruct (JS.truthy w) eqn:Hw; [|discriminate].
  destruct (JS.stripPrefix ";base64," r') as [rest|] eqn:Hb; [|discriminate].
  injection H as <- <-.
  apply stripPrefix_sound in Hp, Hb.
  apply spanWord_sound in Hs as [Hr Hall].
  exists w. subst. repeat split; auto.
  intros ->. discriminate.
Qed.

Lemma matchDataImage_complete subtype data :
  Spec.allWord subtype = true -> subtype <> "" ->
  JS.matchDataImage ("data:image/" ++ subtype ++ ";base64," ++ data)
  = Some ("image/" ++ subtype, data).
Proof.
  intros Hall Hne. unfold JS.matchDataImage.
  rewrite stripPrefix_app.
  rewrite (spanWord_app subtype (";base64," ++ data) Hall eq_refl).
  destruct subtype as [|a w]; [congruence|]. cbn [JS.truthy].
  now rewrite stripPrefix_app.
Qed.

End ImageFacts.

(** X18. An image payload of the form data:image/SUBTYPE;base64,DATA, with
    SUBTYPE a non-empty run of letters, digits and underscores, becomes the
    inline part with MIME type image/SUBTYPE and exactly DATA as its data:
    the prefix is taken off and nothing of the data is lost. *)
Theorem data_uri_decoded (subtype data : string) :
  Spec.allWord subtype = true -> subtype <> "" ->
  geminiService.inlineDataOf ("data:image/" ++ subtype ++ ";base64," ++ data)
  = genai.inlineDataPart ("image/" ++ subtype) data.
Proof.
  intros Hall Hne. unfold geminiService.inlineDataOf, JS.replaceDataImage.
  now rewrite (matchDataImage_complete subtype data Hall Hne).
Qed.

Lemma data_uri_decoded_witness :
  geminiService.inlineDataOf "data:image/png;base64,iVBORw0KGgo="
  = genai.inlineDataPart "image/png" "iVBORw0KGgo=".
Proof.
  apply (data_uri_decoded "png" "iVBORw0KGgo="); [reflexivity|discriminate].
Defined.

(** X19. Any other payload, a data-URI of another shape included (a subtype
    such as svg+xml, another encoding, no image type), is given the MIME
    type image/jpeg and sent whole, prefix and all, as the data of its
    inline part: a payload is decoded only when it has the form of X18. *)
Theorem image_payload_cases (img : string) :
  (exists subtype data,
      img = "data:image/" ++ subtype ++ ";base64," ++ data
      /\ Spec.allWord subtype = true /\ subtype <> ""
      /\ geminiService.inlineDataOf img
         = genai.inlineDataPart ("image/" ++ subtype) data)
  \/ geminiService.inlineDataOf img = genai.inlineDataPart "image/jpeg" img.
Proof.
  unfold geminiService.inlineDataOf, JS.replaceDataImage.
  destruct (JS.matchDataImage img) as [[mime data]|] eqn:Hm.
  - left. destruct (matchDataImage_sound img mime data Hm)
      as (subtype & Himg & Hmime & Hall & Hne).
    exists subtype, data. rewrite Hmime. auto.
  - right. reflexivity.
Qed.

(** *** What is shown of the grounding metadata *)

(** X20. [renderGrounding] shows nothing exactly when the metadata has no
    chunk with a map URI; otherwise it shows one link per such chunk, in
    order, and every link shown has a URI containing google.com/maps and a
    label that is not empty, "Google Maps" standing in for a missing or
    empty title. *)
Theorem renderGrounding_links (metadata : option types.GroundingMetadata) :
  (App.renderGrounding metadata = None
   <-> App.mapChunks (Spec.chunks metadata) = [])
  /\ (forall links,
         App.renderGrounding metadata = Some links ->
         links = map App.mapLink (App.mapChunks (Spec.chunks metadata))
         /\ links <> []
         /\ Forall
              (fun link =>
                 (exists u, App.href link = Some u
                            /\ JS.includes u "google.com/maps" = true)
                 /\ JS.truthy (App.label link) = true)
              links).
Proof.
  assert (Hrender : App.renderGrounding metadata
                    = match App.mapChunks (Spec.chunks metadata) with
                      | [] => None
                      | shown => Some (map App.mapLink shown)
                      end).
  { unfold App.renderGrounding, Spec.chunks.
    destruct metadata as [md|]; [|reflexivity].
    destruct (types.groundingChunks md) as [l|]; [|reflexivity].
    cbv zeta. destruct (App.mapChunks l); reflexivity. }
  rewrite Hrender.
  destruct (App.mapChunks (Spec.chunks metadata)) as [|c shown] eqn:Hshown.
  - split; [tauto|]. intros links H. discriminate.
  - split; [split; discriminate|].
    intros links [= <-]. split; [reflexivity|]. split; [discriminate|].
    apply Forall_forall. intros link Hlink.
    change (In link (map App.mapLink (c :: shown))) in Hlink.
    apply in_map_iff in Hlink as (chunk & <- & Hin).
    assert (Hmap : App.isMapChunk chunk = true).
    { rewrite <- Hshown in Hin. unfold App.mapChunks in Hin.
      now apply filter_In in Hin. }
    unfold App.isMapChunk in Hmap. unfold App.mapLink. cbn.
    destruct (types.web chunk) as [w|]; [|discriminate].
    destruct (types.uri w) as [u|]; [|discriminate].
    apply andb_prop in Hmap as [_ Hinc]. split; [now exists u|].
    destruct (types.title w) as [t|]; [|reflexivity].
    destruct (JS.truthy t) eqn:Ht; [exact Ht|reflexivity].
Qed.

Lemma renderGrounding_links_witness :
  App.renderGrounding (Some Examples.nearby)
  = Some (map App.mapLink [Examples.clinic])
  /\ map App.mapLink [Examples.clinic]
     = map App.mapLink
         (App.mapChunks (Spec.chunks (Some Examples.nearby))).
Proof.
  assert (H : App.renderGrounding (Some Examples.nearby)
              = Some (map App.mapLink [Examples.clinic])) by reflexivity.
  split; [exact H|].
  exact (proj1 (proj2 (renderGrounding_links (Some Examples.nearby)) _ H)).
Defined.

(** *** Blank submissions *)

Lemma trim_allSpace (s : string) :
  Spec.allSpace s = true -> JS.trim s = "".
Proof.
  intros H. unfold JS.trim.
  assert (Hstart : JS.trimStart s = "").
  { induction s as [|a r IH]; [reflexivity|].
    simpl in H. apply andb_prop in H as [Ha Hr].
    cbn [JS.trimStart]. rewrite Ha. now apply IH. }
  now rewrite Hstart.
Qed.

(** X21. A submission whose text is made of spaces, tabs and line breaks
    only, with no image attached, is dropped: no request is sent and the
    state, the typed text included, stays as it is. *)
Theorem blank_submission_dropped (env : Env) (now now' : Z) (st : App.State)
    (text : string) :
  Spec.allSpace text = true ->
  let st0 := App.setAttachedImages [] (App.setInputText text st) in
  App.handleSendMessage env now now' st0 = ([], st0).
Proof.
  intros Hblank st0. unfold App.handleSendMessage, App.returnsEarly.
  change (App.inputText st0) with text.
  change (App.attachedImages st0) with (@nil string).
  rewrite (trim_allSpace text Hblank). reflexivity.
Qed.

Lemma blank_submission_dropped_witness :
  App.handleSendMessage (Examples.answering Examples.silence) 5 6
    (Examples.session 2 "   
  " [])
  = ([], Examples.session 2 "   
  " []).
Proof.
  apply (blank_submission_dropped (Examples.answering Examples.silence) 5 6
           (Examples.session 2 "" []) "   
  ").
  reflexivity.
Defined.

(** *** Message identifiers *)

Lemma toString_inj (a b : Z) : JS.toString a = JS.toString b -> a = b.
Proof.
  unfold JS.toString. intros H.
  assert (Hparse : forall z,
             NilZero.int_of_string (NilZero.string_of_int (Z.to_int z))
             = Some (Z.to_int z)).
  { intros z. apply NilZero.isi; destruct z as [|p|p]; cbn; intros Hz;
      try discriminate Hz;
      injection Hz as Hp; exact (DecimalPos.Unsigned.to_uint_nonnil p Hp). }
  apply DecimalZ.to_int_inj.
  pose proof (Hparse a) as Ha. rewrite H, Hparse in Ha. congruence.
Qed.

(** X22. Identifiers are clock readings: two user messages share one
    exactly when they were made at the same reading, and a user message
    shares the identifier of a model message, answer or fallback, exactly
    when it was made one millisecond after the reading taken for that
    model message. *)
Theorem message_ids (now now' : Z) (st st' : App.State)
    (response : geminiService.ChatResponse) :
  (types.id (App.userMsg now st) = types.id (App.userMsg now' st')
   <-> now = now')
  /\ (types.id (App.userMsg now st) = types.id (App.botMsg now' response)
      <-> now = now' + 1)
  /\ (types.id (App.userMsg now st) = types.id (App.errorMsg now')
      <-> now = now' + 1).
Proof.
  cbn [App.userMsg App.botMsg App.errorMsg types.id].
  repeat split; intros H; try (apply toString_inj; exact H); now subst.
Qed.

(** *** The controls and the handlers *)

(** X23. The guard of the submit handler agrees with the controls on
    screen: a submission is accepted exactly when the form is shown, which
    it is below the turn limit, and the send button is not disabled. *)
Theorem send_button_agrees_with_guard (st : App.State) :
  App.returnsEarly st = false
  <-> App.showsForm st = true /\ App.sendDisabled st = false.
Proof.
  unfold App.returnsEarly, App.showsForm, App.sendDisabled.
  destruct (App.isLimitReached (App.messages st));
    destruct (negb _ && _);
    destruct (types.AppStatus_eqb (App.status st) types.THINKING); cbn;
    split; intros H; try discriminate H; try (destruct H; discriminate);
    auto.
Qed.

(** X24. When the upload control is enabled and at least one file is
    picked, the reading of the first file starts, so the control never
    swallows a picking; with two images attached no reading starts,
    whatever is picked. *)
Theorem upload_control (files : list string) (st : App.State) :
  (App.uploadDisabled st = false ->
   forall file rest, files = file :: rest ->
   exists others, App.handleImageUpload (Some files) st = file :: others)
  /\ (length (App.attachedImages st) = 2%nat ->
      App.handleImageUpload (Some files) st = []).
Proof.
  split.
  - intros Hen file rest ->. unfold App.uploadDisabled in Hen.
    apply orb_false_elim in Hen as [Hn _]. apply Z.leb_gt in Hn.
    rewrite handleImageUpload_free_slots by lia.
    destruct (2 - length (App.attachedImages st))%nat as [|k] eqn:Hk; [lia|].
    cbn [firstn]. eexists. reflexivity.
  - intros H2. rewrite handleImageUpload_free_slots by lia.
    rewrite H2. reflexivity.
Qed.

Lemma upload_control_witness :
  exists others,
    App.handleImageUpload
      (Some ["data:image/png;base64,BBBB"; "data:image/png;base64,CCCC"])
      (Examples.session 0 "" ["data:image/png;base64,AAAA"])
    = "data:image/png;base64,BBBB" :: others.
Proof.
  exact (proj1 (upload_control
                  ["data:image/png;base64,BBBB"; "data:image/png;base64,CCCC"]
                  (Examples.session 0 "" ["data:image/png;base64,AAAA"]))
               eq_refl _ _ eq_refl).
Defined.
